(** * html2canvas: the render-call orchestration of [src/index.ts]

    A shallow embedding of [renderElement] (and of [html2canvas], its public
    wrapper) as a state-and-error computation over the process-wide
    registries the function touches: the logger registry, the resource-cache
    registry, the named-frame store and the set of frames attached to the
    page.  A run also records, in order, the calls made to other modules.

    The functions [renderElement] imports whose results it only passes on
    (colour parsing, bounds, the cloners, the renderers) are fields of an
    environment record, so the statements hold for every implementation of
    them.  The registries behind [Logger], [CacheStorage], [IframeStorage]
    and [DocumentCloner.destroy] follow the interfaces the specification
    gives for them.

    One call runs from start to end without another call in between; of the
    awaited operations only the renderers can reject. *)

From Stdlib Require Import ZArith QArith Qround String Ascii List.
From stdpp Require Import base option gmap strings.

Local Open Scope string_scope.

(** ** JavaScript values *)

(** A value of type [T | null | undefined]. *)
Inductive js (T : Type) : Type :=
  | Undefined
  | Null
  | Val (t : T).
Arguments Undefined {T}.
Arguments Null {T}.
Arguments Val {T} t.

(** A property of an object literal: [None] when the object has no such own
    property, which differs from a property set to [undefined]. *)
Definition prop (T : Type) : Type := option (js T).

(** [o.k]: reading a missing property gives [undefined]. *)
Definition get {T} (p : prop T) : js T := default Undefined p.

(** ToBoolean, as used by [&&], [||], [!], [? :] and [if]. *)
Class Truthy (T : Type) := truthy : T -> bool.
#[global] Instance truthy_bool : Truthy bool := fun b => b.
#[global] Instance truthy_string : Truthy string := fun s => negb (String.eqb s EmptyString).
#[global] Instance truthy_number : Truthy Q := fun q => negb (Qeq_bool q 0).
#[global] Instance truthy_js {T} `{Truthy T} : Truthy (js T) :=
  fun v => match v with Val t => truthy t | _ => false end.

(** [a || b] *)
Definition js_or {T} `{Truthy T} (a b : js T) : js T := if truthy a then a else b.

(** Numbers are modelled by rationals; [renderElement] applies only
    [Math.ceil], [Math.round], a sum and a truthiness test to them. *)
Definition Math_ceil (q : Q) : Q := inject_Z (Qceiling q).
Definition Math_round (q : Q) : Z := Qfloor (q + (1 # 2)).

(** [Number.prototype.toString(16)] on integers. *)
Definition hexDigit (d : Z) : ascii :=
  match d with
  | 0%Z => "0" | 1%Z => "1" | 2%Z => "2" | 3%Z => "3" | 4%Z => "4"
  | 5%Z => "5" | 6%Z => "6" | 7%Z => "7" | 8%Z => "8" | 9%Z => "9"
  | 10%Z => "a" | 11%Z => "b" | 12%Z => "c" | 13%Z => "d" | 14%Z => "e"
  | _ => "f"
  end%char.

Fixpoint hexDigits (fuel : nat) (n : Z) (acc : string) : string :=
  match fuel with
  | O => acc
  | S fuel' =>
      let acc' := String (hexDigit (n mod 16)) acc in
      if (n / 16 =? 0)%Z then acc' else hexDigits fuel' (n / 16) acc'
  end.

Definition toString16 (n : Z) : string :=
  let digits m := hexDigits (S (Z.to_nat (Z.log2 m))) m EmptyString in
  if (n <? 0)%Z then String "-"%char (digits (- n)%Z) else digits n.

(** ** The DOM and the objects handed between modules *)

(** Nodes, documents, frames and canvases are references; [===] on them is
    equality of references. *)
Definition Element := nat.
Definition Document := nat.
Definition Frame := nat.        (* an HTMLIFrameElement *)
Definition Canvas := nat.       (* an HTMLCanvasElement *)
Definition Callback := nat.     (* onclone, ignoreElements *)

(** [type Color = number], a packed 32-bit RGBA value. *)
Definition Color := Z.

Record Window := {
  windowId : nat;
  devicePixelRatio : js Q;
  innerWidth : Q;
  innerHeight : Q;
  pageXOffset : Q;
  pageYOffset : Q
}.

(** A Cache of core/cache-storage, known by the name it was created under. *)
Record Cache := { cacheName : string }.
#[global] Instance truthy_cache : Truthy Cache := fun _ => true.

Module Bounds.
Record t (N : Type) := make { left : N; top : N; width : N; height : N }.
Arguments make {N}.
Arguments left {N}.
Arguments top {N}.
Arguments width {N}.
Arguments height {N}.
End Bounds.

(** [Partial<Options>], and every object literal built from it:
    [CloneOptions & RenderOptions & ResourceOptions & {...}] with each
    property optional. *)
Module Options.
Record t := make {
    (* ResourceOptions *)
    allowTaint : prop bool;
    imageTimeout : prop Q;
    proxy : prop string;
    useCORS : prop bool;
    (* Options *)
    backgroundColor : prop string;
    foreignObjectRendering : prop bool;
    logging : prop bool;
    removeContainer : prop bool;
    renderName : prop string;
    replaceSelector : prop string;
    (* RenderOptions *)
    cache : prop Cache;
    canvas : prop Canvas;
    scale : prop Q;
    windowWidth : prop Q;
    windowHeight : prop Q;
    scrollX : prop Q;
    scrollY : prop Q;
    x : prop Q;
    y : prop Q;
    width : prop Q;
    height : prop Q;
    id : prop string;
    (* CloneOptions *)
    onclone : prop Callback;
    ignoreElements : prop Callback
  }.

  (** [{}] *)
Definition empty : t :=
    make None None None None None None None None None None None None
         None None None None None None None None None None None None.

  (** [{...a, ...b}]: every own property of [b] overrides the one of [a],
      also when [b] holds [undefined] there ([∪] on [option] keeps its left
      operand when that is [Some]). *)
Definition spread (a b : t) : t := {|
    allowTaint := allowTaint b ∪ allowTaint a;
    imageTimeout := imageTimeout b ∪ imageTimeout a;
    proxy := proxy b ∪ proxy a;
    useCORS := useCORS b ∪ useCORS a;
    backgroundColor := backgroundColor b ∪ backgroundColor a;
    foreignObjectRendering := foreignObjectRendering b ∪ foreignObjectRendering a;
    logging := logging b ∪ logging a;
    removeContainer := removeContainer b ∪ removeContainer a;
    renderName := renderName b ∪ renderName a;
    replaceSelector := replaceSelector b ∪ replaceSelector a;
    cache := cache b ∪ cache a;
    canvas := canvas b ∪ canvas a;
    scale := scale b ∪ scale a;
    windowWidth := windowWidth b ∪ windowWidth a;
    windowHeight := windowHeight b ∪ windowHeight a;
    scrollX := scrollX b ∪ scrollX a;
    scrollY := scrollY b ∪ scrollY a;
    x := x b ∪ x a;
    y := y b ∪ y a;
    width := width b ∪ width a;
    height := height b ∪ height a;
    id := id b ∪ id a;
    onclone := onclone b ∪ onclone a;
    ignoreElements := ignoreElements b ∪ ignoreElements a
  |}.
End Options.

(** The second argument of [new DocumentCloner(element, {...})]. *)
Module CloneOptions.
Record t := make {
    id : string;
    onclone : js Callback;
    ignoreElements : js Callback;
    inlineImages : js bool;
    copyStyles : js bool
  }.
End CloneOptions.

Record DocumentCloner := {
  referenceElement : Element;
  cloneOptions : CloneOptions.t
}.

(** The [renderOptions] literal given to either renderer. *)
Module RenderOptions.
Record t := make {
    id : string;
    cache : js Cache;
    canvas : js Canvas;
    backgroundColor : Color;
    scale : js Q;
    x : js Q;
    y : js Q;
    scrollX : js Q;
    scrollY : js Q;
    width : js Q;
    height : js Q;
    windowWidth : js Q;
    windowHeight : js Q
  }.
End RenderOptions.

(** The root of the render tree that [parseTree] returns; of its styles
    only [backgroundColor] is read and written here. *)
Record ElementContainer := {
  container_node : Element;
  styles_backgroundColor : Color
}.

(** ** What [renderElement] imports *)

(** The page as [renderElement] observes it, the clock and the random
    source, and the functions and asynchronous operations of the modules that
    [src/index.ts] imports.  An asynchronous operation is given by the value
    its promise settles to. *)
Record Env := {
  (* DOM *)
  ownerDocument : Element -> option Document;
  defaultView : Document -> option Window;
  documentElement : Document -> option Element;
  body : Document -> option Element;
  computedBackgroundColor : Element -> string;  (* getComputedStyle(e).backgroundColor *)
  contentWindow : Frame -> option Window;
  (* Math.random(), Date.now() *)
  Math_random : Q;
  Date_now : Z;
  (* css/types/color with css/syntax/parser: color.parse(Parser.create(v).parseComponentValue()) *)
  color_parse : string -> Color;
  isTransparent : Color -> bool;
  COLORS_TRANSPARENT : Color;
  (* dom/node-parser *)
  isBodyElement : Element -> bool;
  isHTMLElement : Element -> bool;
  parseTree : Element -> ElementContainer;
  (* css/layout/bounds *)
  parseDocumentSize : Document -> Bounds.t Q;
  parseBounds : Element -> Bounds.t Q;
  (* dom/document-cloner: clonedReferenceElement after cloneDocument(), and
     the frame toIFrame resolves to *)
  clonedReferenceElement : DocumentCloner -> option Element;
  toIFrame_frame : DocumentCloner -> Document -> Bounds.t (js Q) -> Frame;
  (* core/fast-mode-cloner: what clone() resolves to *)
  fastClone_result : DocumentCloner -> Element -> Window -> string -> option Element;
  (* render/canvas: what render() settles to, a canvas or a rejection *)
  foreignObjectRender_result : RenderOptions.t -> Element -> Canvas + string;
  canvasRender_result : RenderOptions.t -> ElementContainer -> Canvas + string
}.

(** [const parseColor = (value) => color.parse(Parser.create(value).parseComponentValue())] *)
Definition parseColor (env : Env) (value : string) : Color := color_parse env value.

(** ** Process-wide state *)

Record World := {
  loggers : gmap string (js bool);   (* Logger: instances by id, with their enabled flag *)
  caches : gmap string Options.t;    (* CacheStorage: caches by name, with their options *)
  currentCache : option (js Cache);  (* CacheStorage: the attached instance *)
  iframes : gmap string Frame;       (* IframeStorage: frames by render name *)
  attachedFrames : gset Frame        (* frames that have a parent node *)
}.

(** The calls [renderElement] makes to other modules, in order, with what
    they returned where the caller looks at it. *)
Inductive Event : Type :=
  | EvCacheCreate (name : string) (options : Options.t)
  | EvLoggerCreate (id : string) (enabled : js bool)
  | EvDebug (id : string) (message : string)
  | EvError (id : string) (message : string)
  | EvGetIframe (name : string) (cachedIframe : option Frame)
  | EvCloneDocument (cloner : DocumentCloner) (found : option Element)
  | EvToIFrame (cloner : DocumentCloner) (doc : Document) (windowBounds : Bounds.t (js Q)) (frame : Frame)
  | EvFastClone (cloner : DocumentCloner) (element : Element) (containerWindow : Window)
                (selector : string) (result : option Element)
  | EvForeignObjectRender (options : RenderOptions.t) (element : Element) (result : Canvas + string)
  | EvAttachInstance (cache : js Cache)
  | EvParseTree (element : Element)
  | EvDetachInstance
  | EvCanvasRender (options : RenderOptions.t) (root : ElementContainer) (result : Canvas + string)
  | EvDestroy (frame : Frame) (detached : bool)
  | EvSaveIframe (name : string) (frame : Frame)
  | EvLoggerDestroy (id : string)
  | EvCacheDestroy (name : string).

(** How a call ends: [throw new Error(m)] inside the async function,
    [return Promise.reject(r)], or the rejection of an awaited promise. *)
Inductive Failure : Type :=
  | ErrorThrown (message : string)
  | RejectedWith (reason : string)
  | AwaitRejected (reason : string).

Inductive Outcome (A : Type) : Type :=
  | Fulfilled (a : A)
  | Rejected (f : Failure).
Arguments Fulfilled {A} a.
Arguments Rejected {A} f.

(** ** A state, error and trace monad *)

Record Run (A : Type) := mkRun {
  outcome : Outcome A;
  final : World;
  calls : list Event
}.
Arguments mkRun {A}.
Arguments outcome {A}.
Arguments final {A}.
Arguments calls {A}.

Definition M (A : Type) : Type := World -> Run A.

#[global] Instance M_ret : MRet M := fun A a w => mkRun (Fulfilled a) w [].

#[global] Instance M_bind : MBind M := fun A B k m w =>
  match m w with
  | mkRun (Fulfilled a) w1 c1 =>
      match k a w1 with
      | mkRun o w2 c2 => mkRun o w2 (c1 ++ c2)
      end
  | mkRun (Rejected f) w1 c1 => mkRun (Rejected f) w1 c1
  end.

Definition throw {A} (f : Failure) : M A := fun w => mkRun (Rejected f) w [].

(** One call to another module: it returns [a], leaves the state [w'] and
    is recorded as [e]. *)
Definition call {A} (step : World -> A * World) (e : A -> Event) : M A := fun w =>
  let '(a, w') := step w in mkRun (Fulfilled a) w' [e a].

(** [await p] for a promise that settles to [r]. *)
Definition await {A} (r : A + string) : M A :=
  match r with
  | inl a => mret a
  | inr reason => throw (AwaitRejected reason)
  end.

(** TypeScript's narrowing of a truthy [T | null | undefined] to [T]. *)
Definition narrow {T} `{Truthy T} (v : js T) : option T :=
  match v with
  | Val t => if truthy t then Some t else None
  | _ => None
  end.

(** ** The modules behind the imports *)

Definition set_loggers (f : gmap string (js bool) -> gmap string (js bool)) (w : World) : World :=
  {| loggers := f (loggers w); caches := caches w; currentCache := currentCache w;
     iframes := iframes w; attachedFrames := attachedFrames w |}.

Definition set_caches (f : gmap string Options.t -> gmap string Options.t) (w : World) : World :=
  {| loggers := loggers w; caches := f (caches w); currentCache := currentCache w;
     iframes := iframes w; attachedFrames := attachedFrames w |}.

Definition set_currentCache (c : option (js Cache)) (w : World) : World :=
  {| loggers := loggers w; caches := caches w; currentCache := c;
     iframes := iframes w; attachedFrames := attachedFrames w |}.

Definition set_iframes (f : gmap string Frame -> gmap string Frame) (w : World) : World :=
  {| loggers := loggers w; caches := caches w; currentCache := currentCache w;
     iframes := f (iframes w); attachedFrames := attachedFrames w |}.

Definition set_attachedFrames (f : gset Frame -> gset Frame) (w : World) : World :=
  {| loggers := loggers w; caches := caches w; currentCache := currentCache w;
     iframes := iframes w; attachedFrames := f (attachedFrames w) |}.

(** Modelled from the spec: core/logger is not among the sources.  The
    logging sink has [create({instanceId, enabled})], which registers a sink
    under the identity, [get(instanceId)] giving [debug(msg)] and
    [error(msg)], and [destroy(instanceId)], which removes the registration. *)
Definition Logger_create (id : string) (enabled : js bool) : M unit :=
  call (fun w => (tt, set_loggers (insert id enabled) w)) (fun _ => EvLoggerCreate id enabled).

(** Modelled from the spec: [get(instanceId).debug(msg)] of the logging
    sink. *)
Definition Logger_debug (id message : string) : M unit :=
  call (fun w => (tt, w)) (fun _ => EvDebug id message).

(** Modelled from the spec: [get(instanceId).error(msg)] of the logging
    sink. *)
Definition Logger_error (id message : string) : M unit :=
  call (fun w => (tt, w)) (fun _ => EvError id message).

(** Modelled from the spec: [destroy(instanceId)] of the logging sink. *)
Definition Logger_destroy (id : string) : M unit :=
  call (fun w => (tt, set_loggers (delete id) w)) (fun _ => EvLoggerDestroy id).

(** Modelled from the spec: core/cache-storage is not among the sources.
    The resource cache has [create(instanceId, ResourceOptions)], which
    registers a cache under the identity and returns its handle,
    [attach(handle)], [detach()] and [destroy(instanceId)], which removes the
    registration. *)
Definition CacheStorage_create (name : string) (options : Options.t) : M Cache :=
  call (fun w => ({| cacheName := name |}, set_caches (insert name options) w))
       (fun _ => EvCacheCreate name options).

(** Modelled from the spec: [attach(handle)] of the resource cache. *)
Definition CacheStorage_attachInstance (cache : js Cache) : M unit :=
  call (fun w => (tt, set_currentCache (Some cache) w)) (fun _ => EvAttachInstance cache).

(** Modelled from the spec: [detach()] of the resource cache. *)
Definition CacheStorage_detachInstance : M unit :=
  call (fun w => (tt, set_currentCache None w)) (fun _ => EvDetachInstance).

(** Modelled from the spec: [destroy(instanceId)] of the resource cache. *)
Definition CacheStorage_destroy (name : string) : M unit :=
  call (fun w => (tt, set_caches (delete name) w)) (fun _ => EvCacheDestroy name).

(** Modelled from the spec: core/iframe-storage is not among the sources.
    The named-frame cache maps a render name to a frame handle:
    [lookup(name)] gives the handle or nothing, [store(name, handle)] sets
    it. *)
Definition IframeStorage_getIframe (name : string) : M (option Frame) :=
  call (fun w => (iframes w !! name, w)) (fun cachedIframe => EvGetIframe name cachedIframe).

(** Modelled from the spec: [store(name, handle)] of the named-frame
    cache. *)
Definition IframeStorage_saveIframe (name : string) (frame : Frame) : M unit :=
  call (fun w => (tt, set_iframes (insert name frame) w)) (fun _ => EvSaveIframe name frame).

(** Modelled from the spec: dom/document-cloner is not among the sources.
    [destroyFrame(handle)] returns a boolean and fails when the frame is no
    longer attached; [duplicateInMemory()] populates the reference to the
    duplicated node; [materializeToFrame(document, windowBounds)] resolves to
    a frame, which it has attached to the page. *)
Definition DocumentCloner_destroy (container : Frame) : M bool :=
  call (fun w => if decide (container ∈ attachedFrames w)
                 then (true, set_attachedFrames (fun s => s ∖ {[container]}) w)
                 else (false, w))
       (fun detached => EvDestroy container detached).

(** Modelled from the spec: [duplicateInMemory()], after which
    [clonedReferenceElement] is the duplicate of the target, if found. *)
Definition DocumentCloner_cloneDocument (env : Env) (cloner : DocumentCloner) : M (option Element) :=
  call (fun w => (clonedReferenceElement env cloner, w)) (fun found => EvCloneDocument cloner found).

(** Modelled from the spec: [materializeToFrame(document, windowBounds)],
    which resolves to a frame that it has attached to the page. *)
Definition DocumentCloner_toIFrame (env : Env) (cloner : DocumentCloner) (doc : Document)
    (windowBounds : Bounds.t (js Q)) : M Frame :=
  call (fun w => let frame := toIFrame_frame env cloner doc windowBounds in
                 (frame, set_attachedFrames (fun s => {[frame]} ∪ s) w))
       (fun frame => EvToIFrame cloner doc windowBounds frame).

(** Modelled from the spec: core/fast-mode-cloner is not among the sources.
    [attemptFastClone()] resolves to [{clonedElement}] or to a failure
    sentinel. *)
Definition FastModeCloner_clone (env : Env) (cloner : DocumentCloner) (element : Element)
    (containerWindow : Window) (selector : string) : M (option Element) :=
  call (fun w => (fastClone_result env cloner element containerWindow selector, w))
       (fun result => EvFastClone cloner element containerWindow selector result).

(** Modelled from the spec: the renderers have one capability,
    [render(rootNode)], resolving to a canvas; a failure of theirs rejects
    the [await]. *)
Definition ForeignObjectRenderer_render (env : Env) (options : RenderOptions.t)
    (element : Element) : M Canvas :=
  r ← call (fun w => (foreignObjectRender_result env options element, w))
           (fun r => EvForeignObjectRender options element r);
  await r.

(** Modelled from the spec: [render(rootNode)] of the canvas renderer. *)
Definition CanvasRenderer_render (env : Env) (options : RenderOptions.t)
    (root : ElementContainer) : M Canvas :=
  r ← call (fun w => (canvasRender_result env options root, w))
           (fun r => EvCanvasRender options root r);
  await r.

(** [parseTree] of dom/node-parser, the style-resolving pass. *)
Definition node_parser_parseTree (env : Env) (element : Element) : M ElementContainer :=
  call (fun w => (parseTree env element, w)) (fun _ => EvParseTree element).

(** ** [renderElement], lines 37-214 of src/index.ts *)

(** Line 50: [(Math.round(Math.random() * 1000) + Date.now()).toString(16)] *)
Definition instanceName (env : Env) : string :=
  toString16 (Math_round (Math_random env * 1000) + Date_now env).

(** Lines 52-53: the rectangle whose [width, height, left, top] are used. *)
Definition captureBounds (env : Env) (element : Element) (ownerDoc : Document) : Bounds.t Q :=
  if isBodyElement env element || isHTMLElement env element
  then parseDocumentSize env ownerDoc
  else parseBounds env element.

(** Lines 55-60. *)
Definition defaultResourceOptions : Options.t := {|
  Options.allowTaint := Some (Val false);
  Options.imageTimeout := Some (Val (15000 # 1));
  Options.proxy := Some Undefined;
  Options.useCORS := Some (Val false);
  Options.backgroundColor := None;
  Options.foreignObjectRendering := None;
  Options.logging := None;
  Options.removeContainer := None;
  Options.renderName := None;
  Options.replaceSelector := None;
  Options.cache := None;
  Options.canvas := None;
  Options.scale := None;
  Options.windowWidth := None;
  Options.windowHeight := None;
  Options.scrollX := None;
  Options.scrollY := None;
  Options.x := None;
  Options.y := None;
  Options.width := None;
  Options.height := None;
  Options.id := None;
  Options.onclone := None;
  Options.ignoreElements := None
|}.

(** Lines 64-82, given the value of the [cache] property. *)
Definition defaultOptions (view : Window) (bounds : Bounds.t Q) (name : string)
    (cache : js Cache) : Options.t := {|
  Options.allowTaint := None;
  Options.imageTimeout := None;
  Options.proxy := None;
  Options.useCORS := None;
  Options.backgroundColor := Some (Val "#ffffff");
  Options.foreignObjectRendering := Some (Val false);
  Options.logging := Some (Val true);
  Options.removeContainer := Some (Val true);
  Options.renderName := Some Null;
  Options.replaceSelector := Some Null;
  Options.cache := Some cache;
  Options.canvas := None;
  Options.scale := Some (js_or (devicePixelRatio view) (Val (1 # 1)));
  Options.windowWidth := Some (Val (innerWidth view));
  Options.windowHeight := Some (Val (innerHeight view));
  Options.scrollX := Some (Val (pageXOffset view));
  Options.scrollY := Some (Val (pageYOffset view));
  Options.x := Some (Val (Bounds.left bounds));
  Options.y := Some (Val (Bounds.top bounds));
  Options.width := Some (Val (Math_ceil (Bounds.width bounds)));
  Options.height := Some (Val (Math_ceil (Bounds.height bounds)));
  Options.id := Some (Val name);
  Options.onclone := None;
  Options.ignoreElements := None
|}.

(** Line 62. *)
Definition resourceOptions (opts : Options.t) : Options.t :=
  Options.spread defaultResourceOptions opts.

(** Line 66: [opts.cache ? opts.cache : CacheStorage.create(instanceName, resourceOptions)] *)
Definition defaultCache (name : string) (opts : Options.t) : M (js Cache) :=
  if truthy (get (Options.cache opts))
  then mret (get (Options.cache opts))
  else c ← CacheStorage_create name (resourceOptions opts); mret (Val c).

(** Line 84. *)
Definition mergedOptions (view : Window) (bounds : Bounds.t Q) (name : string)
    (cache : js Cache) (opts : Options.t) : Options.t :=
  Options.spread (Options.spread (defaultOptions view bounds name cache) (resourceOptions opts)) opts.

(** Lines 120-124 and 127-131: the full duplication. *)
Definition fullClone (env : Env) (cloner : DocumentCloner) (ownerDoc : Document)
    (windowBounds : Bounds.t (js Q)) : M (option Element * Frame) :=
  clonedElement ← DocumentCloner_cloneDocument env cloner;
  container ← DocumentCloner_toIFrame env cloner ownerDoc windowBounds;
  mret (clonedElement, container).

(** Lines 98-132: the cloned element, if any, and the frame that holds it. *)
Definition cloneStep (env : Env) (element : Element) (ownerDoc : Document)
    (options : Options.t) (cloner : DocumentCloner) (windowBounds : Bounds.t (js Q))
    : M (option Element * Frame) :=
  match narrow (get (Options.replaceSelector options)), narrow (get (Options.renderName options)) with
  | Some replaceSelector, Some renderName =>
      cachedIframe ← IframeStorage_getIframe renderName;
      match cachedIframe with
      | Some iframe =>
          match contentWindow env iframe with
          | Some containerWindow =>
              cloneResult ← FastModeCloner_clone env cloner element containerWindow replaceSelector;
              match cloneResult with
              | None => throw (ErrorThrown "An Error occured, trying to fast clone!")
              | Some clonedElement => mret (Some clonedElement, iframe)
              end
          | None => fullClone env cloner ownerDoc windowBounds
          end
      | None => fullClone env cloner ownerDoc windowBounds
      end
  | _, _ => fullClone env cloner ownerDoc windowBounds
  end.

(** Lines 139-144. *)
Definition documentBackgroundColor (env : Env) (ownerDoc : Document) : Color :=
  match documentElement env ownerDoc with
  | Some root => parseColor env (computedBackgroundColor env root)
  | None => COLORS_TRANSPARENT env
  end.

Definition bodyBackgroundColor (env : Env) (ownerDoc : Document) : Color :=
  match body env ownerDoc with
  | Some b => parseColor env (computedBackgroundColor env b)
  | None => COLORS_TRANSPARENT env
  end.

(** Lines 146-148, with [bgColor = opts.backgroundColor]. *)
Definition defaultBackgroundColor (env : Env) (opts : Options.t) : Color :=
  match get (Options.backgroundColor opts) with
  | Val bgColor => parseColor env bgColor
  | Null => COLORS_TRANSPARENT env
  | Undefined => 0xffffffff%Z
  end.

(** Lines 150-157. *)
Definition backgroundColor (env : Env) (element : Element) (ownerDoc : Document)
    (opts : Options.t) : Color :=
  if bool_decide (documentElement env ownerDoc = Some element)
  then if isTransparent env (documentBackgroundColor env ownerDoc)
       then if isTransparent env (bodyBackgroundColor env ownerDoc)
            then defaultBackgroundColor env opts
            else bodyBackgroundColor env ownerDoc
       else documentBackgroundColor env ownerDoc
  else defaultBackgroundColor env opts.

(** Lines 159-173. *)
Definition renderOptions (name : string) (options : Options.t) (bg : Color) : RenderOptions.t := {|
  RenderOptions.id := name;
  RenderOptions.cache := get (Options.cache options);
  RenderOptions.canvas := get (Options.canvas options);
  RenderOptions.backgroundColor := bg;
  RenderOptions.scale := get (Options.scale options);
  RenderOptions.x := get (Options.x options);
  RenderOptions.y := get (Options.y options);
  RenderOptions.scrollX := get (Options.scrollX options);
  RenderOptions.scrollY := get (Options.scrollY options);
  RenderOptions.width := get (Options.width options);
  RenderOptions.height := get (Options.height options);
  RenderOptions.windowWidth := get (Options.windowWidth options);
  RenderOptions.windowHeight := get (Options.windowHeight options)
|}.

(** Lines 189-191: a root painted in the resolved background is made
    transparent. *)
Definition fixupRoot (env : Env) (bg : Color) (root : ElementContainer) : ElementContainer :=
  if (bg =? styles_backgroundColor root)%Z
  then {| container_node := container_node root;
          styles_backgroundColor := COLORS_TRANSPARENT env |}
  else root.

(** Lines 175-197. *)
Definition renderStep (env : Env) (name : string) (options : Options.t) (bg : Color)
    (clonedElement : Element) : M Canvas :=
  if truthy (get (Options.foreignObjectRendering options))
  then
    Logger_debug name "Document cloned, using foreign object rendering";;
    ForeignObjectRenderer_render env (renderOptions name options bg) clonedElement
  else
    Logger_debug name "Document cloned, using computed rendering";;
    CacheStorage_attachInstance (get (Options.cache options));;
    Logger_debug name "Starting DOM parsing";;
    root ← node_parser_parseTree env clonedElement;
    CacheStorage_detachInstance;;
    Logger_debug name "Starting renderer";;
    CanvasRenderer_render env (renderOptions name options bg) (fixupRoot env bg root).

(** Lines 199-203. *)
Definition removeContainerStep (name : string) (options : Options.t) (container : Frame) : M unit :=
  match get (Options.removeContainer options) with
  | Val true =>
      detached ← DocumentCloner_destroy container;
      if negb detached
      then Logger_error name "Cannot detach cloned iframe as it is not in the DOM anymore"
      else mret tt
  | _ => mret tt
  end.

(** Lines 205-208. *)
Definition saveStep (options : Options.t) (container : Frame) : M unit :=
  match narrow (get (Options.renderName options)) with
  | Some renderName => IframeStorage_saveIframe renderName container
  | None => mret tt
  end.

(** Lines 199-212. *)
Definition teardownStep (name : string) (options : Options.t) (container : Frame) : M unit :=
  removeContainerStep name options container;;
  saveStep options container;;
  Logger_debug name "Finished rendering";;
  Logger_destroy name;;
  CacheStorage_destroy name.

(** Lines 134-213: what follows the duplication, given the cloned element,
    if any, and the frame that holds it. *)
Definition renderCloned (env : Env) (element : Element) (ownerDoc : Document)
    (opts : Options.t) (name : string) (options : Options.t)
    (cloned : option Element) (container : Frame) : M Canvas :=
  match cloned with
  | None => throw (RejectedWith "Unable to find element in cloned iframe")
  | Some clonedElement =>
      let bg := backgroundColor env element ownerDoc opts in
      canvas ← renderStep env name options bg clonedElement;
      teardownStep name options container;;
      mret canvas
  end.

(** Lines 50-213, for an element whose document and window were found. *)
Definition renderAttached (env : Env) (element : Element) (ownerDoc : Document)
    (view : Window) (opts : Options.t) : M Canvas :=
  let name := instanceName env in
  let bounds := captureBounds env element ownerDoc in
  cache ← defaultCache name opts;
  let options := mergedOptions view bounds name cache opts in
  let windowBounds :=
    Bounds.make (get (Options.scrollX options)) (get (Options.scrollY options))
                (get (Options.windowWidth options)) (get (Options.windowHeight options)) in
  Logger_create name (get (Options.logging options));;
  Logger_debug name "Starting document clone";;
  let documentCloner := {|
    referenceElement := element;
    cloneOptions := {|
      CloneOptions.id := name;
      CloneOptions.onclone := get (Options.onclone options);
      CloneOptions.ignoreElements := get (Options.ignoreElements options);
      CloneOptions.inlineImages := get (Options.foreignObjectRendering options);
      CloneOptions.copyStyles := get (Options.foreignObjectRendering options)
    |}
  |} in
  '(cloned, container) ← cloneStep env element ownerDoc options documentCloner windowBounds;
  renderCloned env element ownerDoc opts name options cloned container.

(** Lines 37-214. *)
Definition renderElement (env : Env) (element : Element) (opts : Options.t) : M Canvas :=
  match ownerDocument env element with
  | None => throw (ErrorThrown "Element is not attached to a Document")
  | Some ownerDoc =>
      match defaultView env ownerDoc with
      | None => throw (ErrorThrown "Document is not attached to a Window")
      | Some view => renderAttached env element ownerDoc view opts
      end
  end.

(** Lines 27-29: [options] defaults to [{}]. *)
Definition html2canvas (env : Env) (element : Element) (options : option Options.t) : M Canvas :=
  renderElement env element (default Options.empty options).

(** ** Reading a run *)

(** The fast duplication was attempted: [FastModeCloner.clone()] was called. *)
Definition isFastClone (e : Event) : bool :=
  match e with EvFastClone _ _ _ _ _ => true | _ => false end.

(** A step of the full duplication: [cloneDocument()] or [toIFrame()]. *)
Definition isFullClone (e : Event) : bool :=
  match e with EvCloneDocument _ _ | EvToIFrame _ _ _ _ => true | _ => false end.

Definition isDestroy (e : Event) : bool :=
  match e with EvDestroy _ _ => true | _ => false end.

(** The full duplication was performed: the in-memory clone, then at once
    the materialization into a frame by the same cloner. *)
Fixpoint fullClonePerformed (cs : list Event) : bool :=
  match cs with
  | EvCloneDocument _ _ :: (EvToIFrame _ _ _ _ :: _) => true
  | _ :: rest => fullClonePerformed rest
  | [] => false
  end.

(** The frame that hosts the clone: the one [toIFrame] resolved to, or the
    cached one the fast duplication was run in. *)
Fixpoint hostingFrame (cs : list Event) : option Frame :=
  match cs with
  | EvToIFrame _ _ _ frame :: _ => Some frame
  | EvGetIframe _ (Some frame) :: (EvFastClone _ _ _ _ _ :: _) => Some frame
  | _ :: rest => hostingFrame rest
  | [] => None
  end.

(** The canvas a renderer resolved to, if the run got that far. *)
Fixpoint renderedCanvas (cs : list Event) : option Canvas :=
  match cs with
  | EvForeignObjectRender _ _ (inl canvas) :: _ => Some canvas
  | EvCanvasRender _ _ (inl canvas) :: _ => Some canvas
  | _ :: rest => renderedCanvas rest
  | [] => None
  end.

(** The options a renderer was constructed with. *)
Fixpoint renderedWith (cs : list Event) : option RenderOptions.t :=
  match cs with
  | EvForeignObjectRender options _ _ :: _ => Some options
  | EvCanvasRender options _ _ :: _ => Some options
  | _ :: rest => renderedWith rest
  | [] => None
  end.

(** [e1] is called before [e2]. *)
Definition calledBefore (e1 e2 : Event) (cs : list Event) : Prop :=
  exists pre mid post : list Event, cs = (pre ++ e1 :: mid ++ e2 :: post)%list.

(** An option given a value: neither absent, nor [undefined], nor [null]. *)
Definition supplied {T} (p : prop T) : Prop := exists t, p = Some (Val t).

(** The two errors of lines 40-48. *)
Definition PreconditionError (f : Failure) : Prop :=
  f = ErrorThrown "Element is not attached to a Document" \/
  f = ErrorThrown "Document is not attached to a Window".

(** The error of line 115. *)
Definition FastCloneError : Failure := ErrorThrown "An Error occured, trying to fast clone!".

(** The condition of lines 102-105 on the caller's options, the
    named-frame store and the page. *)
Definition fastPathQualifies (env : Env) (w : World) (opts : Options.t) : Prop :=
  exists selector name iframe containerWindow,
    Options.replaceSelector opts = Some (Val selector) /\ selector <> EmptyString /\
    Options.renderName opts = Some (Val name) /\ name <> EmptyString /\
    iframes w !! name = Some iframe /\
    contentWindow env iframe = Some containerWindow.

(** [env] with other computed background colours. *)
Definition with_computedBackgroundColor (f : Element -> string) (env : Env) : Env := {|
  ownerDocument := ownerDocument env;
  defaultView := defaultView env;
  documentElement := documentElement env;
  body := body env;
  computedBackgroundColor := f;
  contentWindow := contentWindow env;
  Math_random := Math_random env;
  Date_now := Date_now env;
  color_parse := color_parse env;
  isTransparent := isTransparent env;
  COLORS_TRANSPARENT := COLORS_TRANSPARENT env;
  isBodyElement := isBodyElement env;
  isHTMLElement := isHTMLElement env;
  parseTree := parseTree env;
  parseDocumentSize := parseDocumentSize env;
  parseBounds := parseBounds env;
  clonedReferenceElement := clonedReferenceElement env;
  toIFrame_frame := toIFrame_frame env;
  fastClone_result := fastClone_result env;
  foreignObjectRender_result := foreignObjectRender_result env;
  canvasRender_result := canvasRender_result env
|}.

(** ** A page to run on *)

Module Page.
  (** Document 0 with root element 1 and body 2; element 3 is a [div] in it,
      element 4 is detached, element 5 belongs to document 9, which has no
      window.  The root is painted [rgb(10,20,30)], the body is transparent. *)
Definition view : Window := {|
    windowId := 0; devicePixelRatio := Val (2 # 1);
    innerWidth := 800 # 1; innerHeight := 600 # 1;
    pageXOffset := 0 # 1; pageYOffset := 0 # 1
  |}.

Definition frameWindow : Window := {|
    windowId := 1; devicePixelRatio := Val (2 # 1);
    innerWidth := 800 # 1; innerHeight := 600 # 1;
    pageXOffset := 0 # 1; pageYOffset := 0 # 1
  |}.

Definition env : Env := {|
    ownerDocument := fun e => if (e =? 4)%nat then None else if (e =? 5)%nat then Some 9%nat else Some 0%nat;
    defaultView := fun d => if (d =? 0)%nat then Some view else None;
    documentElement := fun _ => Some 1%nat;
    body := fun _ => Some 2%nat;
    computedBackgroundColor := fun e => if (e =? 1)%nat then "rgb(10, 20, 30)" else "rgba(0, 0, 0, 0)";
    contentWindow := fun f => if (f =? 7)%nat then Some frameWindow else None;
    Math_random := 1 # 2;
    Date_now := 1000;
    color_parse := fun s =>
      if String.eqb s "rgba(0, 0, 0, 0)" then 0%Z
      else if String.eqb s "#ffffff" then 0xffffffff%Z
      else if String.eqb s "#ff0000" then 0xff0000ff%Z
      else 0x0a141eff%Z;
    isTransparent := fun c => (Z.land 0xff c =? 0)%Z;
    COLORS_TRANSPARENT := 0%Z;
    isBodyElement := fun e => (e =? 2)%nat;
    isHTMLElement := fun e => (e =? 1)%nat;
    parseTree := fun e => {| container_node := e; styles_backgroundColor := 0%Z |};
    parseDocumentSize := fun _ => Bounds.make (0 # 1) (0 # 1) (1000 # 1) (2000 # 1);
    parseBounds := fun _ => Bounds.make (10 # 1) (20 # 1) (301 # 2) (50 # 1);
    clonedReferenceElement := fun _ => Some 100%nat;
    toIFrame_frame := fun _ _ _ => 8%nat;
    fastClone_result := fun _ _ _ selector => if String.eqb selector "#slot" then Some 101%nat else None;
    foreignObjectRender_result := fun _ _ => inl 51%nat;
    canvasRender_result := fun _ _ => inl 50%nat
  |}.

  (** Nothing registered, no frame. *)
Definition fresh : World := {|
    loggers := ∅; caches := ∅; currentCache := None; iframes := ∅; attachedFrames := ∅
  |}.

  (** Frame 7 is attached to the page and stored under the name "report". *)
Definition warm : World := {|
    loggers := ∅; caches := ∅; currentCache := None;
    iframes := {[ "report" := 7%nat ]}; attachedFrames := {[ 7%nat ]}
  |}.

  (** Frame 7 is stored under the name "report" but has lost its parent. *)
Definition stale : World := {|
    loggers := ∅; caches := ∅; currentCache := None;
    iframes := {[ "report" := 7%nat ]}; attachedFrames := ∅
  |}.

  (** [{renderName, replaceSelector}] *)
Definition named (renderName replaceSelector : string) : Options.t :=
    Options.spread Options.empty
      (Options.make None None None None None None None None
         (Some (Val renderName)) (Some (Val replaceSelector))
         None None None None None None None None None None None None None None).

  (** [{removeContainer}] over [base]. *)
Definition withRemoveContainer (v : js bool) (base : Options.t) : Options.t :=
    Options.spread base
      (Options.make None None None None None None None (Some v) None None
         None None None None None None None None None None None None None None).

  (** [{backgroundColor}] *)
Definition withBackgroundColor (v : js string) : Options.t :=
    Options.make None None None None (Some v) None None None None None
         None None None None None None None None None None None None None None.
End Page.

(** ** Reading a run: renderers, registries and the run identity *)

Definition isForeignObjectRender (e : Event) : bool :=
  match e with EvForeignObjectRender _ _ _ => true | _ => false end.

Definition isCanvasRender (e : Event) : bool :=
  match e with EvCanvasRender _ _ _ => true | _ => false end.

Definition isRender (e : Event) : bool := isForeignObjectRender e || isCanvasRender e.

Definition isParseTree (e : Event) : bool :=
  match e with EvParseTree _ => true | _ => false end.

Definition isAttachInstance (e : Event) : bool :=
  match e with EvAttachInstance _ => true | _ => false end.

Definition isCacheCreate (e : Event) : bool :=
  match e with EvCacheCreate _ _ => true | _ => false end.

Definition isSaveIframe (e : Event) : bool :=
  match e with EvSaveIframe _ _ => true | _ => false end.

Definition isToIFrame (e : Event) : bool :=
  match e with EvToIFrame _ _ _ _ => true | _ => false end.

(** The calls of lines 184-196, one after the other: the cache is attached,
    the tree is parsed, the cache is detached, the canvas renderer runs. *)
Fixpoint computedRendering (cs : list Event) : bool :=
  match cs with
  | EvAttachInstance _ :: (EvDebug _ _ :: EvParseTree _ :: EvDetachInstance
      :: EvDebug _ _ :: EvCanvasRender _ _ _ :: _) => true
  | _ :: rest => computedRendering rest
  | [] => false
  end.

(** The reason a renderer's promise was rejected with, if one was. *)
Fixpoint renderFailure (cs : list Event) : option string :=
  match cs with
  | EvForeignObjectRender _ _ (inr reason) :: _ => Some reason
  | EvCanvasRender _ _ (inr reason) :: _ => Some reason
  | _ :: rest => renderFailure rest
  | [] => None
  end.

(** The life of the logger of one identity, as [Logger.getInstance]
    requires it: created once, then used, then destroyed once. *)
Inductive LoggerState : Type := NotCreated | Live | Destroyed.

(** Follows the logger calls of a run from state [st]; [None] when a call
    names another identity or comes in a state that does not allow it. *)
Fixpoint loggerProtocol (id : string) (st : LoggerState) (cs : list Event) : option LoggerState :=
  match cs with
  | [] => Some st
  | EvLoggerCreate i _ :: rest =>
      match st with
      | NotCreated => if String.eqb i id then loggerProtocol id Live rest else None
      | _ => None
      end
  | EvDebug i _ :: rest | EvError i _ :: rest =>
      match st with
      | Live => if String.eqb i id then loggerProtocol id Live rest else None
      | _ => None
      end
  | EvLoggerDestroy i :: rest =>
      match st with
      | Live => if String.eqb i id then loggerProtocol id Destroyed rest else None
      | _ => None
      end
  | _ :: rest => loggerProtocol id st rest
  end.

(** The number a string of lower-case hexadecimal digits stands for. *)
Definition hexDigitValue (c : ascii) : Z :=
  match c with
  | "0" => 0 | "1" => 1 | "2" => 2 | "3" => 3 | "4" => 4 | "5" => 5 | "6" => 6
  | "7" => 7 | "8" => 8 | "9" => 9 | "a" => 10 | "b" => 11 | "c" => 12
  | "d" => 13 | "e" => 14 | _ => 15
  end%char%Z.

Fixpoint hexValue (s : string) : Z :=
  match s with
  | EmptyString => 0
  | String c rest => (hexDigitValue c * 16 ^ Z.of_nat (String.length rest) + hexValue rest)%Z
  end.

(** ** More pages to run on *)

Module Scenario.
(** The page of [Page.env] at time [now], where the in-memory clone finds
    [found], the renderers settle to [rendered] and the window reports the
    pixel ratio [ratio]. *)
Definition env (now : Z) (found : option Element) (rendered : Canvas + string)
    (ratio : js Q) : Env := {|
  ownerDocument := ownerDocument Page.env;
  defaultView := fun d =>
    if (d =? 0)%nat
    then Some {| windowId := 0; devicePixelRatio := ratio;
                 innerWidth := 800 # 1; innerHeight := 600 # 1;
                 pageXOffset := 5 # 1; pageYOffset := 7 # 1 |}
    else None;
  documentElement := documentElement Page.env;
  body := body Page.env;
  computedBackgroundColor := computedBackgroundColor Page.env;
  contentWindow := fun f => if (f =? 8)%nat then Some Page.frameWindow else contentWindow Page.env f;
  Math_random := Math_random Page.env;
  Date_now := now;
  color_parse := color_parse Page.env;
  isTransparent := isTransparent Page.env;
  COLORS_TRANSPARENT := COLORS_TRANSPARENT Page.env;
  isBodyElement := isBodyElement Page.env;
  isHTMLElement := isHTMLElement Page.env;
  parseTree := fun e => {| container_node := e; styles_backgroundColor := 0xffffffff%Z |};
  parseDocumentSize := parseDocumentSize Page.env;
  parseBounds := parseBounds Page.env;
  clonedReferenceElement := fun _ => found;
  toIFrame_frame := toIFrame_frame Page.env;
  fastClone_result := fastClone_result Page.env;
  foreignObjectRender_result := fun _ _ => rendered;
  canvasRender_result := fun _ _ => rendered
|}.

(** [{foreignObjectRendering}] *)
Definition withForeignObjectRendering (v : js bool) : Options.t :=
  Options.make None None None None None (Some v) None None None None
       None None None None None None None None None None None None None None.

(** [{cache}] *)
Definition withCache (v : js Cache) : Options.t :=
  Options.make None None None None None None None None None None
       (Some v) None None None None None None None None None None None None None.

(** [{scale}] *)
Definition withScale (v : js Q) : Options.t :=
  Options.make None None None None None None None None None None
       None None (Some v) None None None None None None None None None None None.
End Scenario.

(** ** Proof automation *)

(** Unfolds the phases of [renderAttached] and the calls they make, up to
    [renderCloned], until a [match] on an unknown is left. *)
Ltac unfold_run :=
  cbv [renderElement renderAttached cloneStep fullClone renderStep teardownStep
       removeContainerStep saveStep defaultCache
       Logger_create Logger_debug Logger_error Logger_destroy
       CacheStorage_create CacheStorage_attachInstance CacheStorage_detachInstance
       CacheStorage_destroy IframeStorage_getIframe IframeStorage_saveIframe
       DocumentCloner_destroy DocumentCloner_cloneDocument DocumentCloner_toIFrame
       FastModeCloner_clone ForeignObjectRenderer_render CanvasRenderer_render
       node_parser_parseTree
       await call throw mbind mret M_bind M_ret outcome final calls app
       set_loggers set_caches set_currentCache set_iframes set_attachedFrames
       loggers caches currentCache iframes attachedFrames negb].

Ltac destruct_innermost x :=
  lazymatch x with
  | context [match ?y with _ => _ end] => destruct_innermost y
  | _ => destruct x eqn:?
  end.

Ltac run_step :=
  match goal with
  | |- context [match ?x with _ => _ end] => destruct_innermost x
  end.

(** Every way the run can go, with the tests that lead there as
    hypotheses. *)
Ltac run_cases := repeat (unfold_run; run_step); unfold_run.

(** The same for lines 134-213 alone. *)
Ltac back_cases :=
  cbv zeta;
  match goal with w : World |- _ => destruct w as [lg ch cur ifr att] end;
  unfold renderCloned; run_cases.

(** * Properties *)

Example toString16_255 : toString16 255 = "ff".
Proof. reflexivity. Qed.

Example instanceName_page : instanceName Page.env = "5dc".
Proof. reflexivity. Qed.

(** [{...{removeContainer: true}, ...{removeContainer: undefined}}] holds
    [undefined]. *)
Example spread_keeps_undefined :
  get (Options.removeContainer
         (Options.spread (Page.withRemoveContainer (Val true) Options.empty)
                         (Page.withRemoveContainer Undefined Options.empty)))
  = Undefined.
Proof. reflexivity. Qed.

(** ** The merged options *)

Lemma narrow_Some (v : js string) (s : string) :
  narrow v = Some s <-> v = Val s /\ s <> EmptyString.
Proof.
  destruct v as [| |t]; simpl; try (split; [discriminate | intros [? _]; discriminate]).
  unfold truthy, truthy_string. destruct (String.eqb_spec t EmptyString); simpl; split.
  - discriminate.
  - intros [[= ->] ?]. contradiction.
  - intros [= ->]. auto.
  - intros [[= ->] _]. reflexivity.
Qed.

(** [renderName] and [replaceSelector] default to [null], which is as falsy
    as a missing value. *)
Lemma merged_renderName view bounds name cache opts :
  narrow (get (Options.renderName (mergedOptions view bounds name cache opts)))
  = narrow (get (Options.renderName opts)).
Proof. simpl. destruct (Options.renderName opts); reflexivity. Qed.

Lemma merged_replaceSelector view bounds name cache opts :
  narrow (get (Options.replaceSelector (mergedOptions view bounds name cache opts)))
  = narrow (get (Options.replaceSelector opts)).
Proof. simpl. destruct (Options.replaceSelector opts); reflexivity. Qed.

(** [removeContainer] defaults to [true] only when the caller's object has
    no such property. *)
Lemma merged_removeContainer view bounds name cache opts :
  get (Options.removeContainer (mergedOptions view bounds name cache opts))
  = default (Val true) (Options.removeContainer opts).
Proof. simpl. destruct (Options.removeContainer opts); reflexivity. Qed.

(** ** The background cascade *)

Lemma backgroundColor_root env element ownerDoc opts :
  documentElement env ownerDoc = Some element ->
  backgroundColor env element ownerDoc opts =
    if isTransparent env (documentBackgroundColor env ownerDoc)
    then if isTransparent env (bodyBackgroundColor env ownerDoc)
         then defaultBackgroundColor env opts
         else bodyBackgroundColor env ownerDoc
    else documentBackgroundColor env ownerDoc.
Proof.
  intros Hroot. unfold backgroundColor.
  rewrite bool_decide_eq_true_2 by exact Hroot. reflexivity.
Qed.

Lemma backgroundColor_not_root env element ownerDoc opts :
  documentElement env ownerDoc <> Some element ->
  backgroundColor env element ownerDoc opts = defaultBackgroundColor env opts.
Proof.
  intros Hnot. unfold backgroundColor.
  rewrite bool_decide_eq_false_2 by exact Hnot. reflexivity.
Qed.


(** ** Running [renderElement] case by case *)

Lemma get_Val {T} (p : prop T) (t : T) : get p = Val t <-> p = Some (Val t).
Proof.
  unfold get. destruct p as [v|]; simpl; split; intros H; try discriminate; congruence.
Qed.

Lemma fastPathQualifies_narrow env w opts :
  fastPathQualifies env w opts <->
  exists selector name iframe containerWindow,
    narrow (get (Options.replaceSelector opts)) = Some selector /\
    narrow (get (Options.renderName opts)) = Some name /\
    iframes w !! name = Some iframe /\
    contentWindow env iframe = Some containerWindow.
Proof.
  unfold fastPathQualifies. split; intros (sel & name & f & win & H).
  - destruct H as (Hs & Hs' & Hn & Hn' & Hf & Hw). exists sel, name, f, win.
    rewrite !narrow_Some, !get_Val. auto.
  - destruct H as (Hs & Hn & Hf & Hw). rewrite narrow_Some, get_Val in Hs, Hn.
    exists sel, name, f, win. tauto.
Qed.

Lemma existsb_false_In {A} (p : A -> bool) (l : list A) (x : A) :
  existsb p l = false -> In x l -> p x = false.
Proof.
  intros Hl Hx. destruct (p x) eqn:Hp; [|reflexivity].
  assert (existsb p l = true) by (apply existsb_exists; eauto). congruence.
Qed.

Lemma calledBefore_here e1 e2 cs : In e2 cs -> calledBefore e1 e2 (e1 :: cs).
Proof.
  intros (mid & post & ->)%in_split. exists [], mid, post. reflexivity.
Qed.

Lemma calledBefore_cons x e1 e2 cs : calledBefore e1 e2 cs -> calledBefore e1 e2 (x :: cs).
Proof.
  intros (pre & mid & post & ->). exists (x :: pre), mid, post. reflexivity.
Qed.

(** *** After the duplication: lines 134-213 *)

Section AfterDuplication.
Context (env : Env) (element : Element) (ownerDoc : Document) (opts : Options.t).
Context (name : string) (options : Options.t).
Context (cloned : option Element) (container : Frame) (w : World).

Lemma renderCloned_no_clone :
  let r := renderCloned env element ownerDoc opts name options cloned container w in
  existsb isFastClone (calls r) = false /\ existsb isFullClone (calls r) = false /\
  hostingFrame (calls r) = None.
Proof. back_cases; repeat split. Qed.

Lemma renderCloned_renderedWith ro :
  let r := renderCloned env element ownerDoc opts name options cloned container w in
  renderedWith (calls r) = Some ro ->
  ro = renderOptions name options (backgroundColor env element ownerDoc opts).
Proof. back_cases; cbn [renderedWith]; congruence. Qed.

Lemma renderCloned_returns canvas :
  let r := renderCloned env element ownerDoc opts name options cloned container w in
  renderedCanvas (calls r) = Some canvas <-> outcome r = Fulfilled canvas.
Proof. back_cases; cbn [renderedCanvas]; split; congruence. Qed.

Lemma renderCloned_destroys canvas :
  let r := renderCloned env element ownerDoc opts name options cloned container w in
  get (Options.removeContainer options) = Val true ->
  outcome r = Fulfilled canvas ->
  (exists detached, In (EvDestroy container detached) (calls r)) /\
  container ∉ attachedFrames (final r).
Proof.
  back_cases; intros Hrc; try discriminate; intros _.
  all: cbn [In attachedFrames]; split; [eexists; eauto 20 |].
  all: first [ assumption
             | intros [_ Hn]%elem_of_difference; apply Hn, elem_of_singleton; reflexivity ].
Qed.

Lemma renderCloned_keeps :
  let r := renderCloned env element ownerDoc opts name options cloned container w in
  get (Options.removeContainer options) <> Val true ->
  existsb isDestroy (calls r) = false /\ attachedFrames (final r) = attachedFrames w.
Proof.
  back_cases; intros Hrc; try contradiction; split; reflexivity.
Qed.

Lemma renderCloned_detached_logged frame :
  let r := renderCloned env element ownerDoc opts name options cloned container w in
  In (EvDestroy frame false) (calls r) ->
  In (EvError name "Cannot detach cloned iframe as it is not in the DOM anymore") (calls r).
Proof.
  back_cases; cbn [In]; intros Hd.
  all: repeat (destruct Hd as [Hd | Hd]; [try discriminate Hd |]); try contradiction.
  all: tauto.
Qed.

Lemma renderCloned_saves renderName canvas :
  let r := renderCloned env element ownerDoc opts name options cloned container w in
  narrow (get (Options.renderName options)) = Some renderName ->
  outcome r = Fulfilled canvas ->
  In (EvSaveIframe renderName container) (calls r) /\
  iframes (final r) !! renderName = Some container /\
  (forall detached, In (EvDestroy container detached) (calls r) ->
     calledBefore (EvDestroy container detached) (EvSaveIframe renderName container) (calls r)).
Proof.
  back_cases; intros Hrn; try discriminate; intros _.
  all: injection Hrn as <-.
  all: cbn [In iframes]; split; [tauto | split; [apply lookup_insert_eq |]].
  all: intros detached Hd.
  all: repeat (destruct Hd as [Hd | Hd]; [try discriminate Hd |]); try contradiction.
  all: injection Hd as <-.
  all: repeat (first [ apply calledBefore_here; cbn [In]; tauto | apply calledBefore_cons ]).
Qed.

(** Without a truthy render name the named-frame store is left as it was. *)
Lemma renderCloned_not_saved :
  let r := renderCloned env element ownerDoc opts name options cloned container w in
  narrow (get (Options.renderName options)) = None ->
  iframes (final r) = iframes w.
Proof. back_cases; intros Hrn; try discriminate; reflexivity. Qed.

Lemma renderCloned_releases canvas :
  let r := renderCloned env element ownerDoc opts name options cloned container w in
  outcome r = Fulfilled canvas ->
  loggers (final r) !! name = None /\ caches (final r) !! name = None.
Proof.
  back_cases; try discriminate; intros _; cbn [loggers caches].
  all: split; apply lookup_delete_eq.
Qed.

End AfterDuplication.

(** *** The whole call *)

(** What is known of a run of lines 134-213 met while running the call. *)
Ltac after_duplication :=
  repeat match goal with
  | H : renderCloned ?e ?el ?d ?o ?n ?os ?c ?f ?w = mkRun ?oc ?w' ?cs |- _ =>
      pose proof (renderCloned_no_clone e el d o n os c f w) as (? & ? & ?);
      pose proof (renderCloned_renderedWith e el d o n os c f w) as ?;
      pose proof (renderCloned_returns e el d o n os c f w) as ?;
      pose proof (renderCloned_destroys e el d o n os c f w) as ?;
      pose proof (renderCloned_keeps e el d o n os c f w) as ?;
      pose proof (renderCloned_detached_logged e el d o n os c f w) as ?;
      pose proof (renderCloned_saves e el d o n os c f w) as ?;
      pose proof (renderCloned_releases e el d o n os c f w) as ?;
      rewrite H in *; clear H
  end;
  cbn [outcome final calls] in *;
  rewrite ?merged_renderName, ?merged_replaceSelector, ?merged_removeContainer in *.

(** The renderer, whichever it is, is constructed with the options of
    lines 159-173: the merged options and the resolved background. *)
Lemma renderElement_renderedWith (env : Env) (w : World) (element : Element)
    (opts : Options.t) (d : Document) (ro : RenderOptions.t) :
  ownerDocument env element = Some d ->
  renderedWith (calls (renderElement env element opts w)) = Some ro ->
  exists view cache,
    defaultView env d = Some view /\
    ro = renderOptions (instanceName env)
           (mergedOptions view (captureBounds env element d) (instanceName env) cache opts)
           (backgroundColor env element d opts).
Proof.
  intros Hd. destruct w as [lg ch cur ifr att].
  unfold renderElement. rewrite Hd.
  run_cases.
  all: after_duplication.
  all: cbn [renderedWith]; try discriminate.
  all: intros Hro; eexists _, _; split; [reflexivity | auto].
Qed.

Lemma renderElement_background (env : Env) (w : World) (element : Element)
    (opts : Options.t) (d : Document) (ro : RenderOptions.t) :
  ownerDocument env element = Some d ->
  renderedWith (calls (renderElement env element opts w)) = Some ro ->
  RenderOptions.backgroundColor ro = backgroundColor env element d opts.
Proof.
  intros Hd Hro.
  destruct (renderElement_renderedWith _ _ _ _ _ _ Hd Hro) as (view & cache & _ & ->).
  reflexivity.
Qed.

(** A call that returns has released its logger and its cache. *)
Lemma renderElement_releases (env : Env) (w : World) (element : Element)
    (opts : Options.t) (canvas : Canvas) :
  let r := renderElement env element opts w in
  outcome r = Fulfilled canvas ->
  loggers (final r) !! instanceName env = None /\
  caches (final r) !! instanceName env = None.
Proof.
  cbv zeta. destruct w as [lg ch cur ifr att].
  run_cases.
  all: after_duplication.
  all: try discriminate; eauto.
Qed.

(** C1, as amended: for every call that passes the checks on the
    document and its window, the fast duplication is attempted exactly when
    [replaceSelector] and [renderName] are both non-empty strings, the
    named-frame store holds a frame under [renderName] and that frame's
    window is not null; in every other case the full duplication is
    performed: the in-memory clone, then the materialization into a frame. *)
Theorem C1_duplication_path (env : Env) (w : World) (element : Element) (opts : Options.t)
    (d : Document) (v : Window) :
  ownerDocument env element = Some d ->
  defaultView env d = Some v ->
  let cs := calls (renderElement env element opts w) in
  (fastPathQualifies env w opts ->
     existsb isFastClone cs = true /\ existsb isFullClone cs = false) /\
  (~ fastPathQualifies env w opts ->
     fullClonePerformed cs = true /\ existsb isFastClone cs = false).
Proof.
  intros Hd Hv. cbv zeta. rewrite fastPathQualifies_narrow.
  destruct w as [lg ch cur ifr att].
  unfold renderElement. rewrite Hd, Hv.
  run_cases.
  all: after_duplication.
  all: cbn [existsb isFastClone isFullClone fullClonePerformed orb iframes].
  all: split; [intros (? & ? & ? & ? & Hs & Hn & Hf & Hw) | intros Hnot].
  all: try (split; (reflexivity || assumption)).
  all: try congruence.
  all: try (exfalso; apply Hnot; eauto 10).
Qed.

(** A second call under the name "report": the fast duplication runs in
    the stored frame. *)
Lemma C1_duplication_path_witness :
  let cs := calls (renderElement Page.env 3%nat (Page.named "report" "#slot") Page.warm) in
  existsb isFastClone cs = true /\ existsb isFullClone cs = false.
Proof.
  refine (proj1 (C1_duplication_path Page.env Page.warm 3%nat (Page.named "report" "#slot")
                   0%nat Page.view _ _) _); [reflexivity | reflexivity |].
  exists "#slot", "report", 7%nat, Page.frameWindow.
  repeat split; try discriminate; reflexivity.
Defined.

(** C1, as stated, fails for an empty selector: both options are supplied,
    the store holds a frame under the name and its window is not null, yet
    the full duplication is performed and the fast one is not attempted. *)
Lemma C1_counterexample :
  let opts := Page.named "report" EmptyString in
  let cs := calls (renderElement Page.env 3%nat opts Page.warm) in
  supplied (Options.replaceSelector opts) /\
  supplied (Options.renderName opts) /\
  iframes Page.warm !! "report" = Some 7%nat /\
  contentWindow Page.env 7%nat = Some Page.frameWindow /\
  existsb isFastClone cs = false /\
  fullClonePerformed cs = true.
Proof.
  cbv zeta. split; [eexists; reflexivity|]. split; [eexists; reflexivity|].
  repeat split; vm_compute; reflexivity.
Qed.

(** C2: when the fast duplication is attempted and yields no element, the
    call is rejected with the error of line 115, that attempt is the last
    call it makes, and no step of the full duplication is performed. *)
Theorem C2_no_fallback (env : Env) (w : World) (element : Element) (opts : Options.t)
    (cloner : DocumentCloner) (target : Element) (containerWindow : Window) (selector : string) :
  let r := renderElement env element opts w in
  In (EvFastClone cloner target containerWindow selector None) (calls r) ->
  outcome r = Rejected FastCloneError /\
  existsb isFullClone (calls r) = false /\
  calls r = (removelast (calls r) ++ [EvFastClone cloner target containerWindow selector None])%list.
Proof.
  cbv zeta. destruct w as [lg ch cur ifr att].
  run_cases.
  all: after_duplication.
  all: cbn [In existsb isFullClone orb removelast app].
  all: intros Hfast; repeat (destruct Hfast as [Hfast | Hfast]; try discriminate Hfast);
    try contradiction.
  all: try (injection Hfast as <- <- <- <-; repeat split).
  all: match goal with
       | Hc : existsb isFastClone ?cs = false |- _ =>
           pose proof (existsb_false_In _ _ _ Hc Hfast); discriminate
       end.
Qed.

(** No node matches the selector in the stored frame. *)
Lemma C2_no_fallback_witness :
  let r := renderElement Page.env 3%nat (Page.named "report" ".missing") Page.warm in
  outcome r = Rejected FastCloneError /\ existsb isFullClone (calls r) = false.
Proof.
  pose proof (C2_no_fallback Page.env Page.warm 3%nat (Page.named "report" ".missing")) as H.
  cbv zeta in H. edestruct H as (H1 & H2 & _).
  - vm_compute. do 4 right. left. reflexivity.
  - split; assumption.
Defined.

(** C3: when the target is the document's root element, the renderer is
    given the resolved background, and a root whose computed background is
    not transparent gives it, whatever the [backgroundColor] option; a
    transparent root gives way to a body that is not transparent; and when
    both are transparent the base default of the option is used. *)
Theorem C3_root_background (env : Env) (element : Element) (ownerDoc : Document) (opts : Options.t) :
  ownerDocument env element = Some ownerDoc ->
  documentElement env ownerDoc = Some element ->
  let rootBg := parseColor env (computedBackgroundColor env element) in
  let bodyBg b := parseColor env (computedBackgroundColor env b) in
  let resolved := backgroundColor env element ownerDoc opts in
  (forall w ro, renderedWith (calls (renderElement env element opts w)) = Some ro ->
     RenderOptions.backgroundColor ro = resolved) /\
  (isTransparent env rootBg = false -> resolved = rootBg) /\
  (forall b, body env ownerDoc = Some b -> isTransparent env rootBg = true ->
     isTransparent env (bodyBg b) = false -> resolved = bodyBg b) /\
  (forall b, body env ownerDoc = Some b -> isTransparent env rootBg = true ->
     isTransparent env (bodyBg b) = true -> resolved = defaultBackgroundColor env opts).
Proof.
  intros Hd Hroot. cbv zeta.
  split; [intros w ro; apply renderElement_background; exact Hd |].
  rewrite (backgroundColor_root _ _ _ _ Hroot).
  unfold documentBackgroundColor, bodyBackgroundColor. rewrite Hroot.
  repeat split.
  - intros ->. reflexivity.
  - intros b -> -> ->. reflexivity.
  - intros b -> -> ->. reflexivity.
Qed.

(** The spec's example: root [rgb(10,20,30)], option ["#ffffff"]. *)
Lemma C3_root_background_witness :
  backgroundColor Page.env 1%nat 0%nat (Page.withBackgroundColor (Val "#ffffff")) = 0x0a141eff%Z.
Proof.
  refine (proj1 (proj2 (C3_root_background Page.env 1%nat 0%nat
            (Page.withBackgroundColor (Val "#ffffff")) _ _)) _); reflexivity.
Defined.

(** C4: when the target is not the document's root element, the renderer
    is given the base default as background: the parsed option when it is a
    string, transparent when it is [null], opaque white when it is unset;
    and the result does not depend on any computed background of the page. *)
Theorem C4_element_background (env : Env) (element : Element) (ownerDoc : Document) (opts : Options.t) :
  ownerDocument env element = Some ownerDoc ->
  documentElement env ownerDoc <> Some element ->
  let resolved := backgroundColor env element ownerDoc opts in
  (forall w ro, renderedWith (calls (renderElement env element opts w)) = Some ro ->
     RenderOptions.backgroundColor ro = resolved) /\
  resolved = defaultBackgroundColor env opts /\
  (forall value, Options.backgroundColor opts = Some (Val value) -> resolved = parseColor env value) /\
  (Options.backgroundColor opts = Some Null -> resolved = COLORS_TRANSPARENT env) /\
  (Options.backgroundColor opts = None \/ Options.backgroundColor opts = Some Undefined ->
   resolved = 0xffffffff%Z) /\
  (forall computed,
     backgroundColor (with_computedBackgroundColor computed env) element ownerDoc opts = resolved).
Proof.
  intros Hd Hnot. cbv zeta.
  split; [intros w ro; apply renderElement_background; exact Hd |].
  rewrite (backgroundColor_not_root env) by exact Hnot.
  unfold defaultBackgroundColor.
  repeat split.
  - intros value ->. reflexivity.
  - intros ->. reflexivity.
  - intros [-> | ->]; reflexivity.
  - intros computed. rewrite backgroundColor_not_root by exact Hnot. reflexivity.
Qed.

(** The spec's example: a [div], option ["#ff0000"]. *)
Lemma C4_element_background_witness :
  backgroundColor Page.env 3%nat 0%nat (Page.withBackgroundColor (Val "#ff0000")) = 0xff0000ff%Z.
Proof.
  refine (proj1 (proj2 (proj2 (C4_element_background Page.env 3%nat 0%nat
            (Page.withBackgroundColor (Val "#ff0000")) _ _))) "#ff0000" _);
    [reflexivity | discriminate | reflexivity].
Defined.

(** C5, as amended: a call that runs the fast duplication in a frame
    borrowed from the named-frame store leaves that frame alone when the
    caller's [removeContainer] is present and not [true]; when it is [true]
    or absent and the call returns, the borrowed frame is destroyed. *)
Theorem C5_borrowed_frame (env : Env) (w : World) (element : Element) (opts : Options.t) :
  let r := renderElement env element opts w in
  existsb isFastClone (calls r) = true ->
  exists name borrowed,
    Options.renderName opts = Some (Val name) /\
    iframes w !! name = Some borrowed /\
    hostingFrame (calls r) = Some borrowed /\
    (forall kept, Options.removeContainer opts = Some kept -> kept <> Val true ->
       existsb isDestroy (calls r) = false /\ attachedFrames (final r) = attachedFrames w) /\
    (Options.removeContainer opts = None \/ Options.removeContainer opts = Some (Val true) ->
     forall canvas, outcome r = Fulfilled canvas ->
       (exists detached, In (EvDestroy borrowed detached) (calls r)) /\
       borrowed ∉ attachedFrames (final r)).
Proof.
  cbv zeta. destruct w as [lg ch cur ifr att].
  run_cases.
  all: after_duplication.
  all: cbn [existsb isFastClone isDestroy orb hostingFrame In iframes attachedFrames].
  all: try congruence.
  all: intros _.
  all: match goal with
       | Hn : narrow (get (Options.renderName _)) = Some ?n |- _ =>
           apply narrow_Some in Hn; destruct Hn as [Hn%get_Val _]; exists n
       end.
  all: eexists; split; [eassumption|]; split; [eassumption|]; split; [reflexivity|].
  all: split; [intros kept Hk Hnot | intros Hrc canvas Hc].
  all: try discriminate Hc.
  all: try (split; reflexivity).
  all: try (match goal with
            | Hkeep : _ -> existsb isDestroy _ = false /\ _ |- _ => apply Hkeep
            end; rewrite Hk; exact Hnot).
  all: match goal with
       | Hdestroy : forall c, _ -> _ -> (exists _, In _ _) /\ _ |- _ =>
           destruct (Hdestroy canvas) as [[detached Hin] Hgone];
             [destruct Hrc as [-> | ->]; reflexivity | exact Hc |]
       end.
  all: split; [exists detached; tauto | exact Hgone].
Qed.

(** With [{removeContainer: false}] the stored frame survives the call. *)
Lemma C5_borrowed_frame_witness :
  let r := renderElement Page.env 3%nat
             (Page.withRemoveContainer (Val false) (Page.named "report" "#slot")) Page.warm in
  exists name borrowed,
    iframes Page.warm !! name = Some borrowed /\
    hostingFrame (calls r) = Some borrowed /\
    existsb isDestroy (calls r) = false /\
    attachedFrames (final r) = attachedFrames Page.warm.
Proof.
  cbv zeta.
  destruct (C5_borrowed_frame Page.env Page.warm 3%nat
              (Page.withRemoveContainer (Val false) (Page.named "report" "#slot")))
    as (name & borrowed & _ & Hin & Hhost & Hkeep & _).
  - vm_compute. reflexivity.
  - exists name, borrowed. split; [exact Hin|]. split; [exact Hhost|].
    apply (Hkeep (Val false)); [reflexivity | discriminate].
Defined.

(** C5, as stated, fails for the default [removeContainer]: the call runs
    in frame 7, borrowed from the store, and destroys it. *)
Lemma C5_counterexample :
  let r := renderElement Page.env 3%nat (Page.named "report" "#slot") Page.warm in
  existsb isFastClone (calls r) = true /\
  iframes Page.warm !! "report" = Some 7%nat /\
  hostingFrame (calls r) = Some 7%nat /\
  In (EvDestroy 7%nat true) (calls r) /\
  7%nat ∈ attachedFrames Page.warm /\
  7%nat ∉ attachedFrames (final r).
Proof.
  cbv zeta.
  split; [vm_compute; reflexivity|]. split; [vm_compute; reflexivity|].
  split; [vm_compute; reflexivity|]. split; [|split].
  - vm_compute. do 12 right. left. reflexivity.
  - refine (bool_decide_unpack _ _). vm_compute. exact I.
  - refine (bool_decide_unpack _ _). vm_compute. exact I.
Qed.

(** C6, as amended: a call with a non-empty [renderName] that returns has
    stored its hosting frame under that name, whatever [removeContainer]
    is; and when the frame is also destroyed, which happens when
    [removeContainer] is [true] or absent, [destroy] is called before
    [saveIframe]. *)
Theorem C6_named_frame_saved (env : Env) (w : World) (element : Element) (opts : Options.t)
    (name : string) (canvas : Canvas) :
  Options.renderName opts = Some (Val name) ->
  name <> EmptyString ->
  let r := renderElement env element opts w in
  outcome r = Fulfilled canvas ->
  exists container,
    hostingFrame (calls r) = Some container /\
    In (EvSaveIframe name container) (calls r) /\
    iframes (final r) !! name = Some container /\
    (forall detached, In (EvDestroy container detached) (calls r) ->
       calledBefore (EvDestroy container detached) (EvSaveIframe name container) (calls r)) /\
    (Options.removeContainer opts = None \/ Options.removeContainer opts = Some (Val true) ->
     exists detached, In (EvDestroy container detached) (calls r)).
Proof.
  intros Hname Hne. cbv zeta.
  assert (Hn : narrow (get (Options.renderName opts)) = Some name)
    by (apply narrow_Some; rewrite get_Val; auto).
  destruct w as [lg ch cur ifr att].
  run_cases.
  all: after_duplication.
  all: try discriminate.
  all: intros Hc.
  all: match goal with
       | Hsave : forall rn c, _ -> _ -> In (EvSaveIframe rn _) _ /\ _ |- _ =>
           destruct (Hsave name canvas Hn Hc) as (Hin & Hlook & Hbefore)
       end.
  all: eexists; split; [cbn [hostingFrame]; reflexivity|].
  all: cbn [In]; split; [tauto|]; split; [exact Hlook|]; split.
  all: try (intros detached Hd;
            repeat (destruct Hd as [Hd | Hd]; try discriminate Hd);
            repeat apply calledBefore_cons; apply Hbefore; exact Hd).
  all: intros Hrc.
  all: match goal with
       | Hdestroy : forall c, _ -> _ -> (exists _, In _ _) /\ _ |- _ =>
           destruct (Hdestroy canvas) as [[detached Hd] _];
             [destruct Hrc as [-> | ->]; reflexivity | exact Hc |]
       end.
  all: exists detached; tauto.
Qed.

(** A first call under the name "report", with the default
    [removeContainer]: the fresh frame is destroyed, then stored. *)
Lemma C6_named_frame_saved_witness :
  let r := renderElement Page.env 3%nat (Page.named "report" "#slot") Page.fresh in
  exists container,
    hostingFrame (calls r) = Some container /\
    iframes (final r) !! "report" = Some container /\
    exists detached,
      calledBefore (EvDestroy container detached) (EvSaveIframe "report" container) (calls r).
Proof.
  cbv zeta.
  destruct (C6_named_frame_saved Page.env Page.fresh 3%nat (Page.named "report" "#slot")
              "report" 50%nat)
    as (container & Hhost & _ & Hlook & Hbefore & Hdestroy).
  - reflexivity.
  - discriminate.
  - vm_compute. reflexivity.
  - exists container. split; [exact Hhost|]. split; [exact Hlook|].
    destruct Hdestroy as [detached Hd]; [left; reflexivity|].
    exists detached. apply Hbefore. exact Hd.
Defined.

(** C6, as stated, fails for an empty render name: the call returns and
    nothing is stored under that name. *)
Lemma C6_counterexample :
  let opts := Page.named EmptyString "#slot" in
  let r := renderElement Page.env 3%nat opts Page.fresh in
  supplied (Options.renderName opts) /\
  outcome r = Fulfilled 50%nat /\
  iframes (final r) !! EmptyString = None.
Proof.
  cbv zeta. split; [eexists; reflexivity|]. split; vm_compute; reflexivity.
Qed.

(** C7: when the target element has no owning document, or its document
    has no window, the call is rejected with the error of line 41 or 47
    before anything is called and with every registry as it was. *)
Theorem C7_precondition_error (env : Env) (w : World) (element : Element) (opts : Options.t) :
  (ownerDocument env element = None \/
   exists d, ownerDocument env element = Some d /\ defaultView env d = None) ->
  let r := renderElement env element opts w in
  (exists f, outcome r = Rejected f /\ PreconditionError f) /\ final r = w /\ calls r = [].
Proof.
  intros H r. subst r. unfold renderElement, PreconditionError.
  destruct H as [-> | (d & -> & ->)]; simpl; eauto 6.
Qed.

(** Element 4 has no document. *)
Lemma C7_precondition_error_witness :
  let r := renderElement Page.env 4%nat Options.empty Page.fresh in
  (exists f, outcome r = Rejected f /\ PreconditionError f) /\ final r = Page.fresh /\ calls r = [].
Proof. apply C7_precondition_error. left. reflexivity. Defined.

(** Element 5 is in a document without a window. *)
Example no_window_rejected :
  let r := renderElement Page.env 5%nat Options.empty Page.fresh in
  outcome r = Rejected (ErrorThrown "Document is not attached to a Window") /\ calls r = [].
Proof. split; reflexivity. Qed.

(** C8 fails on the code: a call whose fast duplication yields no element
    is rejected at line 115, and the logger and the cache registered under
    its identity at lines 66 and 88 stay registered; lines 211-212, which
    release them, are reached only by a call that returns. *)
Theorem C8_teardown_skipped_on_failure :
  let r := renderElement Page.env 3%nat (Page.named "report" ".missing") Page.warm in
  let id := instanceName Page.env in
  outcome r = Rejected FastCloneError /\
  loggers Page.warm !! id = None /\
  caches Page.warm !! id = None /\
  loggers (final r) !! id = Some (Val true) /\
  is_Some (caches (final r) !! id).
Proof.
  cbv zeta. repeat split; try (vm_compute; reflexivity).
  vm_compute. eexists. reflexivity.
Qed.

(** C9, as amended: a call whose renderer has resolved to a canvas returns
    that canvas, and destroys its hosting frame exactly when the caller's
    [removeContainer] is [true] or absent; when it is present with any
    other value, [undefined] included, nothing is destroyed.  When
    [destroy] reports that the frame was not attached, the message of line
    201 is logged through the logger's [error] and the canvas is returned
    all the same. *)
Theorem C9_remove_container (env : Env) (w : World) (element : Element) (opts : Options.t)
    (canvas : Canvas) :
  let r := renderElement env element opts w in
  renderedCanvas (calls r) = Some canvas ->
  outcome r = Fulfilled canvas /\
  (Options.removeContainer opts = None \/ Options.removeContainer opts = Some (Val true) ->
   exists frame detached,
     hostingFrame (calls r) = Some frame /\
     In (EvDestroy frame detached) (calls r) /\
     frame ∉ attachedFrames (final r)) /\
  (forall kept, Options.removeContainer opts = Some kept -> kept <> Val true ->
     existsb isDestroy (calls r) = false) /\
  (forall frame, In (EvDestroy frame false) (calls r) ->
     In (EvError (instanceName env)
           "Cannot detach cloned iframe as it is not in the DOM anymore") (calls r)).
Proof.
  cbv zeta. destruct w as [lg ch cur ifr att].
  run_cases.
  all: after_duplication.
  all: cbn [renderedCanvas]; try discriminate.
  all: intros Hcanvas.
  all: match goal with
       | Hret : forall c, renderedCanvas _ = Some c <-> _ |- _ =>
           pose proof (proj1 (Hret canvas) Hcanvas) as Hc
       end.
  all: split; [exact Hc|]; split; [|split].
  all: cbn [hostingFrame In existsb isDestroy orb].
  all: try (intros kept Hk Hnot;
            match goal with
            | Hkeep : _ -> existsb isDestroy _ = false /\ _ |- _ => apply Hkeep
            end; rewrite Hk; exact Hnot).
  all: try (intros frame Hd; repeat (destruct Hd as [Hd | Hd]; try discriminate Hd);
            solve [eauto 20]).
  all: intros Hrc.
  all: match goal with
       | Hdestroy : forall c, _ -> _ -> (exists _, In _ _) /\ _ |- _ =>
           destruct (Hdestroy canvas) as [[detached Hd] Hgone];
             [destruct Hrc as [-> | ->]; reflexivity | exact Hc |]
       end.
  all: eexists _, detached; split; [reflexivity|]; split; [tauto | exact Hgone].
Qed.

(** No options at all: the fresh frame is destroyed. *)
Lemma C9_remove_container_witness :
  let r := renderElement Page.env 3%nat Options.empty Page.fresh in
  outcome r = Fulfilled 50%nat /\
  exists frame detached,
    hostingFrame (calls r) = Some frame /\
    In (EvDestroy frame detached) (calls r) /\
    frame ∉ attachedFrames (final r).
Proof.
  cbv zeta.
  destruct (C9_remove_container Page.env Page.fresh 3%nat Options.empty 50%nat)
    as (Hc & Hdestroy & _).
  - vm_compute. reflexivity.
  - split; [exact Hc|]. apply Hdestroy. left. reflexivity.
Defined.

(** C9, as stated, fails for [{removeContainer: undefined}]: the option is
    unset, the call returns, and frame 8, which it created, is still
    attached. *)
Lemma C9_counterexample :
  let opts := Page.withRemoveContainer Undefined Options.empty in
  let r := renderElement Page.env 3%nat opts Page.fresh in
  Options.removeContainer opts = Some Undefined /\
  outcome r = Fulfilled 50%nat /\
  hostingFrame (calls r) = Some 8%nat /\
  existsb isDestroy (calls r) = false /\
  8%nat ∈ attachedFrames (final r).
Proof.
  cbv zeta.
  split; [reflexivity|]. split; [vm_compute; reflexivity|].
  split; [vm_compute; reflexivity|]. split; [vm_compute; reflexivity|].
  refine (bool_decide_unpack _ _). vm_compute. exact I.
Qed.

(** A stored frame that has lost its parent: [destroy] fails, the error is
    logged and the canvas is returned. *)
Example detached_frame_logged :
  let r := renderElement Page.env 3%nat (Page.named "report" "#slot") Page.stale in
  outcome r = Fulfilled 50%nat /\
  In (EvDestroy 7%nat false) (calls r) /\
  In (EvError "5dc" "Cannot detach cloned iframe as it is not in the DOM anymore") (calls r).
Proof.
  cbv zeta. split; [vm_compute; reflexivity|]. split.
  - vm_compute. do 12 right. left. reflexivity.
  - vm_compute. do 13 right. left. reflexivity.
Qed.

(** C10: when the target is a body element and not the root, the capture
    rectangle is the document's size, which gives the renderer its [x], [y],
    [width] and [height] unless the caller sets them, and the background is
    the base default of the option, independent of every computed
    background of the page. *)
Theorem C10_body_capture (env : Env) (element : Element) (ownerDoc : Document) (opts : Options.t) :
  ownerDocument env element = Some ownerDoc ->
  isBodyElement env element = true ->
  documentElement env ownerDoc <> Some element ->
  let size := parseDocumentSize env ownerDoc in
  captureBounds env element ownerDoc = size /\
  backgroundColor env element ownerDoc opts = defaultBackgroundColor env opts /\
  (forall computed,
     backgroundColor (with_computedBackgroundColor computed env) element ownerDoc opts
     = backgroundColor env element ownerDoc opts) /\
  (forall w ro, renderedWith (calls (renderElement env element opts w)) = Some ro ->
     RenderOptions.backgroundColor ro = defaultBackgroundColor env opts /\
     (Options.x opts = None -> RenderOptions.x ro = Val (Bounds.left size)) /\
     (Options.y opts = None -> RenderOptions.y ro = Val (Bounds.top size)) /\
     (Options.width opts = None -> RenderOptions.width ro = Val (Math_ceil (Bounds.width size))) /\
     (Options.height opts = None -> RenderOptions.height ro = Val (Math_ceil (Bounds.height size)))).
Proof.
  intros Hd Hbody Hnot. cbv zeta.
  assert (Hb : captureBounds env element ownerDoc = parseDocumentSize env ownerDoc)
    by (unfold captureBounds; rewrite Hbody; reflexivity).
  split; [exact Hb|].
  split; [apply backgroundColor_not_root; exact Hnot|].
  split; [intros computed; rewrite !backgroundColor_not_root by exact Hnot; reflexivity|].
  intros w ro Hro.
  destruct (renderElement_renderedWith _ _ _ _ _ _ Hd Hro) as (view & cache & _ & ->).
  rewrite Hb. cbn.
  split; [apply backgroundColor_not_root; exact Hnot|].
  repeat split; intros ->; reflexivity.
Qed.

(** The body of the page, option [null]: the document's size and a
    transparent background. *)
Lemma C10_body_capture_witness :
  captureBounds Page.env 2%nat 0%nat = Bounds.make (0 # 1) (0 # 1) (1000 # 1) (2000 # 1) /\
  backgroundColor Page.env 2%nat 0%nat (Page.withBackgroundColor Null) = 0%Z.
Proof.
  destruct (C10_body_capture Page.env 2%nat 0%nat (Page.withBackgroundColor Null))
    as (Hb & Hbg & _); [reflexivity | reflexivity | discriminate |].
  split; [exact Hb | exact Hbg].
Defined.

(** * Further properties of [renderElement] *)

(** ** Lines 134-213, continued *)

Lemma merged_foreignObjectRendering view bounds name cache opts :
  truthy (get (Options.foreignObjectRendering (mergedOptions view bounds name cache opts)))
  = truthy (get (Options.foreignObjectRendering opts)).
Proof. simpl. destruct (Options.foreignObjectRendering opts); reflexivity. Qed.


Section AfterDuplicationMore.
Context (env : Env) (element : Element) (ownerDoc : Document) (opts : Options.t).
Context (name : string) (options : Options.t).
Context (cloned : option Element) (container : Frame) (w : World).

Lemma renderCloned_not_found :
  let r := renderCloned env element ownerDoc opts name options cloned container w in
  cloned = None ->
  outcome r = Rejected (RejectedWith "Unable to find element in cloned iframe") /\
  calls r = [] /\ final r = w.
Proof. intros r ->. repeat split. Qed.

Lemma renderCloned_dispatch :
  let r := renderCloned env element ownerDoc opts name options cloned container w in
  match cloned with
  | None => existsb isRender (calls r) = false
  | Some _ =>
      length (List.filter isRender (calls r)) = 1%nat /\
      if truthy (get (Options.foreignObjectRendering options))
      then existsb isForeignObjectRender (calls r) = true /\
           existsb isCanvasRender (calls r) = false /\
           existsb isParseTree (calls r) = false /\
           existsb isAttachInstance (calls r) = false
      else existsb isCanvasRender (calls r) = true /\
           existsb isForeignObjectRender (calls r) = false /\
           computedRendering (calls r) = true /\
           In (EvAttachInstance (get (Options.cache options))) (calls r)
  end.
Proof.
  back_cases; try reflexivity; (split; [reflexivity|]); repeat split.
  all: cbn [In]; tauto.
Qed.

Lemma renderCloned_render_rejected reason :
  let r := renderCloned env element ownerDoc opts name options cloned container w in
  renderFailure (calls r) = Some reason ->
  outcome r = Rejected (AwaitRejected reason) /\
  existsb isDestroy (calls r) = false /\
  existsb isSaveIframe (calls r) = false /\
  loggers (final r) = loggers w /\ caches (final r) = caches w /\
  iframes (final r) = iframes w /\ attachedFrames (final r) = attachedFrames w.
Proof.
  back_cases; cbn [renderFailure]; intros Hr; try discriminate Hr.
  all: injection Hr as <-; repeat split.
Qed.


Lemma renderCloned_currentCache :
  let r := renderCloned env element ownerDoc opts name options cloned container w in
  (existsb isParseTree (calls r) = true -> currentCache (final r) = None) /\
  (existsb isParseTree (calls r) = false -> currentCache (final r) = currentCache w).
Proof.
  back_cases; cbn [existsb isParseTree orb currentCache]; split; intros Hp;
    first [reflexivity | discriminate Hp].
Qed.

Lemma renderCloned_other_identities other :
  let r := renderCloned env element ownerDoc opts name options cloned container w in
  other <> name ->
  loggers (final r) !! other = loggers w !! other /\
  caches (final r) !! other = caches w !! other.
Proof.
  back_cases; intros Hne; cbn [loggers caches]; split; try reflexivity.
  all: apply lookup_delete_ne; congruence.
Qed.

Lemma renderCloned_other_names key :
  let r := renderCloned env element ownerDoc opts name options cloned container w in
  narrow (get (Options.renderName options)) <> Some key ->
  iframes (final r) !! key = iframes w !! key.
Proof.
  back_cases; intros Hne; cbn [iframes]; try reflexivity.
  all: apply lookup_insert_ne; congruence.
Qed.

Lemma renderCloned_loggerProtocol :
  let r := renderCloned env element ownerDoc opts name options cloned container w in
  loggerProtocol name Live (calls r) =
    Some (match outcome r with Fulfilled _ => Destroyed | Rejected _ => Live end).
Proof.
  back_cases; repeat (cbn [loggerProtocol]; rewrite ?String.eqb_refl); reflexivity.
Qed.

Lemma renderCloned_restores canvas :
  let r := renderCloned env element ownerDoc opts name options cloned container w in
  outcome r = Fulfilled canvas ->
  loggers (final r) = delete name (loggers w) /\
  caches (final r) = delete name (caches w) /\
  (get (Options.removeContainer options) = Val true ->
   attachedFrames (final r) = attachedFrames w ∖ {[container]}).
Proof.
  back_cases; try discriminate; intros _; cbn [loggers caches attachedFrames].
  all: split; [reflexivity|]; split; [reflexivity|]; intros Hrc; try discriminate Hrc.
  all: try reflexivity.
  all: symmetry; apply difference_disjoint_L, disjoint_singleton_r; assumption.
Qed.

Lemma renderCloned_no_setup :
  let r := renderCloned env element ownerDoc opts name options cloned container w in
  existsb isCacheCreate (calls r) = false /\ existsb isToIFrame (calls r) = false.
Proof. back_cases; split; reflexivity. Qed.

End AfterDuplicationMore.

(** ** The whole call, continued *)

Lemma renderedWith_isRender (cs : list Event) (ro : RenderOptions.t) :
  renderedWith cs = Some ro -> existsb isRender cs = true.
Proof.
  induction cs as [|e cs IH]; [discriminate|].
  destruct e; cbn; auto.
Qed.

(** The facts [L1], ... about the run of lines 134-213 at hand. *)
Ltac facts1 L1 e el d o n os c f w :=
  pose proof (L1 e el d o n os c f w).
Ltac facts2 L1 L2 e el d o n os c f w :=
  pose proof (L1 e el d o n os c f w); pose proof (L2 e el d o n os c f w).
Ltac facts3 L1 L2 L3 e el d o n os c f w :=
  facts2 L1 L2 e el d o n os c f w; pose proof (L3 e el d o n os c f w).
Ltac facts4 L1 L2 L3 L4 e el d o n os c f w :=
  facts3 L1 L2 L3 e el d o n os c f w; pose proof (L4 e el d o n os c f w).

(** Every way the call can go, with [facts] about what follows the
    duplication. *)
Ltac run_call_using facts :=
  cbv zeta;
  match goal with w : World |- _ => destruct w as [lg ch cur ifr att] end;
  run_cases;
  try match goal with
  | H : renderCloned ?e ?el ?d ?o ?n ?os ?c ?f ?w = mkRun _ _ _ |- _ =>
      facts e el d o n os c f w; rewrite H in *; clear H
  end;
  cbn [outcome final calls] in *;
  rewrite ?merged_renderName, ?merged_replaceSelector, ?merged_removeContainer,
          ?merged_foreignObjectRendering in *.

(** Reads the fields of the worlds a run has built. *)
Ltac read_world := cbn [loggers caches currentCache iframes attachedFrames] in *.

(** Splits a hypothesis [In e (e1 :: ... :: cs)] into its cases. *)
Ltac in_cases H :=
  cbn [In] in H;
  repeat (destruct H as [H | H]; [try discriminate H |]);
  try contradiction.

(** When the in-memory clone does not find the target, the call is
    rejected at line 135: no renderer runs, nothing is destroyed or stored,
    and the frame [toIFrame] created stays attached. *)
Theorem clone_not_found_rejects (env : Env) (w : World) (element : Element)
    (opts : Options.t) (cloner : DocumentCloner) :
  let r := renderElement env element opts w in
  In (EvCloneDocument cloner None) (calls r) ->
  outcome r = Rejected (RejectedWith "Unable to find element in cloned iframe") /\
  existsb isRender (calls r) = false /\
  existsb isDestroy (calls r) = false /\
  existsb isSaveIframe (calls r) = false /\
  iframes (final r) = iframes w /\
  is_Some (loggers (final r) !! instanceName env) /\
  exists frame, hostingFrame (calls r) = Some frame /\ frame ∈ attachedFrames (final r).
Proof.
  run_call_using ltac:(facts2 renderCloned_not_found renderCloned_no_clone).
  all: read_world.
  all: cbn [existsb isRender isForeignObjectRender isCanvasRender isDestroy isSaveIframe orb
            hostingFrame].
  all: intros Hin; in_cases Hin.
  all: try match goal with
       | Hc : _ /\ existsb isFullClone _ = false /\ _ |- _ =>
           pose proof (existsb_false_In _ _ _ (proj1 (proj2 Hc)) Hin); discriminate
       end.
  all: injection Hin as <- Hnone.
  all: match goal with
       | Hnot : _ = None -> _ /\ _ = [] /\ _ |- _ =>
           destruct (Hnot Hnone) as (Ho & Hcs & Hw)
       end.
  all: subst; try discriminate.
  all: try (injection Hw as -> -> -> -> ->).
  all: repeat split; try reflexivity.
  all: try (rewrite lookup_insert_eq; eexists; reflexivity).
  all: eexists; split; [reflexivity | apply elem_of_union_l, elem_of_singleton; reflexivity].
Qed.

Lemma clone_not_found_rejects_witness :
  let r := renderElement (Scenario.env 1000 None (inl 50%nat) (Val (2 # 1)))
             3%nat Options.empty Page.fresh in
  outcome r = Rejected (RejectedWith "Unable to find element in cloned iframe") /\
  exists frame, hostingFrame (calls r) = Some frame /\ frame ∈ attachedFrames (final r).
Proof.
  cbv zeta.
  edestruct (clone_not_found_rejects (Scenario.env 1000 None (inl 50%nat) (Val (2 # 1)))
               Page.fresh 3%nat Options.empty) as (Ho & _ & _ & _ & _ & _ & Hf).
  - vm_compute. do 3 right. left. reflexivity.
  - split; assumption.
Defined.

(** Exactly one renderer runs in a call that gets that far, chosen by the
    truthiness of [foreignObjectRendering]: the foreign-object renderer,
    with no call to [parseTree] or [attachInstance], or the canvas renderer,
    after the cache given to it was attached, the tree parsed and the
    cache detached. *)
Theorem one_renderer_dispatched (env : Env) (w : World) (element : Element)
    (opts : Options.t) (ro : RenderOptions.t) :
  let r := renderElement env element opts w in
  renderedWith (calls r) = Some ro ->
  length (List.filter isRender (calls r)) = 1%nat /\
  (truthy (get (Options.foreignObjectRendering opts)) = true ->
     existsb isForeignObjectRender (calls r) = true /\
     existsb isCanvasRender (calls r) = false /\
     existsb isParseTree (calls r) = false /\
     existsb isAttachInstance (calls r) = false) /\
  (truthy (get (Options.foreignObjectRendering opts)) = false ->
     existsb isCanvasRender (calls r) = true /\
     existsb isForeignObjectRender (calls r) = false /\
     computedRendering (calls r) = true /\
     In (EvAttachInstance (RenderOptions.cache ro)) (calls r)).
Proof.
  run_call_using ltac:(facts2 renderCloned_dispatch renderCloned_renderedWith).
  all: cbn [renderedWith]; try discriminate.
  all: intros Hro.
  all: match goal with
       | Hwith : forall ro, renderedWith _ = Some ro -> ro = _ |- _ =>
           pose proof (Hwith ro Hro) as ->
       end.
  all: apply renderedWith_isRender in Hro.
  all: try match goal with
       | Hd : match ?c with _ => _ end |- _ =>
           lazymatch type of c with
           | option Element => destruct c; [| congruence]
           end
       end.
  all: match goal with
       | Hd : length _ = 1%nat /\ _ |- _ => destruct Hd as [Hone Hd]
       end.
  all: cbn [List.filter isRender isForeignObjectRender isCanvasRender isParseTree
            isAttachInstance existsb orb computedRendering In RenderOptions.cache renderOptions].
  all: split; [exact Hone|].
  all: destruct (truthy (get (Options.foreignObjectRendering opts)));
         split; intros Ht; try discriminate Ht; tauto.
Qed.

Lemma one_renderer_dispatched_witness :
  let r := renderElement Page.env 3%nat (Scenario.withForeignObjectRendering (Val true)) Page.fresh in
  length (List.filter isRender (calls r)) = 1%nat /\
  existsb isForeignObjectRender (calls r) = true /\
  existsb isParseTree (calls r) = false.
Proof.
  cbv zeta.
  edestruct (one_renderer_dispatched Page.env Page.fresh 3%nat
               (Scenario.withForeignObjectRendering (Val true))) as (Hone & Hfo & _).
  - vm_compute. reflexivity.
  - destruct Hfo as (H1 & _ & H3 & _); [reflexivity|]. auto.
Defined.

(** When the renderer's promise is rejected, the call is rejected with the
    same reason and lines 199-212 are skipped: nothing is destroyed or
    stored, no frame is detached and the logger stays registered. *)
Theorem renderer_rejection_propagates (env : Env) (w : World) (element : Element)
    (opts : Options.t) (reason : string) :
  let r := renderElement env element opts w in
  renderFailure (calls r) = Some reason ->
  outcome r = Rejected (AwaitRejected reason) /\
  existsb isDestroy (calls r) = false /\
  existsb isSaveIframe (calls r) = false /\
  iframes (final r) = iframes w /\
  attachedFrames w ⊆ attachedFrames (final r) /\
  is_Some (loggers (final r) !! instanceName env).
Proof.
  run_call_using ltac:(facts1 renderCloned_render_rejected).
  all: cbn [renderFailure]; try discriminate.
  all: intros Hr.
  all: match goal with
       | Hrej : forall reason, renderFailure _ = Some reason -> _ |- _ =>
           destruct (Hrej reason Hr) as (Ho & Hd & Hs & Hl & _ & Hi & Ha)
       end.
  all: read_world; subst.
  all: cbn [existsb isDestroy isSaveIframe orb].
  all: repeat split; try assumption; try reflexivity.
  all: try (rewrite lookup_insert_eq; eexists; reflexivity).
  all: apply union_subseteq_r.
Qed.

Lemma renderer_rejection_propagates_witness :
  let r := renderElement (Scenario.env 1000 (Some 100%nat) (inr "tainted") (Val (2 # 1)))
             3%nat Options.empty Page.fresh in
  outcome r = Rejected (AwaitRejected "tainted") /\ existsb isDestroy (calls r) = false.
Proof.
  cbv zeta.
  edestruct (renderer_rejection_propagates
               (Scenario.env 1000 (Some 100%nat) (inr "tainted") (Val (2 # 1)))
               Page.fresh 3%nat Options.empty "tainted") as (Ho & Hd & _).
  - vm_compute. reflexivity.
  - split; assumption.
Defined.



(** A call never leaves a cache attached: after a call that parsed the
    tree no cache is attached, whatever the renderer did afterwards; a call
    that did not parse leaves the attached cache as it was. *)
Theorem cache_not_left_attached (env : Env) (w : World) (element : Element) (opts : Options.t) :
  let r := renderElement env element opts w in
  (existsb isParseTree (calls r) = true -> currentCache (final r) = None) /\
  (existsb isParseTree (calls r) = false -> currentCache (final r) = currentCache w).
Proof.
  run_call_using ltac:(facts1 renderCloned_currentCache).
  all: read_world; cbn [existsb isParseTree orb].
  all: try (split; intros Hp; first [reflexivity | discriminate Hp]).
  all: assumption.
Qed.

(** A call touches the logger and cache registries only under its own
    identity: the entries of every other identity are as they were,
    however the call ends. *)
Theorem other_identities_untouched (env : Env) (w : World) (element : Element)
    (opts : Options.t) (other : string) :
  let r := renderElement env element opts w in
  other <> instanceName env ->
  loggers (final r) !! other = loggers w !! other /\
  caches (final r) !! other = caches w !! other.
Proof.
  run_call_using ltac:(facts1 renderCloned_other_identities).
  all: read_world; intros Hne.
  all: try match goal with
       | Hother : forall other, other <> _ -> _ /\ _ |- _ =>
           destruct (Hother other Hne) as [-> ->]
       end.
  all: rewrite ?lookup_insert_ne by congruence; split; reflexivity.
Qed.

Lemma other_identities_untouched_witness :
  let w := {| loggers := {[ "abc" := Val false ]}; caches := ∅; currentCache := None;
              iframes := ∅; attachedFrames := ∅ |} in
  let r := renderElement Page.env 3%nat Options.empty w in
  loggers (final r) !! "abc" = Some (Val false).
Proof.
  cbv zeta.
  refine (eq_trans (proj1 (other_identities_untouched Page.env _ 3%nat Options.empty "abc" _)) _).
  - vm_compute. discriminate.
  - reflexivity.
Defined.

(** The named-frame store changes under no key but the call's truthy
    render name: without one the store is as it was. *)
Theorem other_names_untouched (env : Env) (w : World) (element : Element)
    (opts : Options.t) (key : string) :
  let r := renderElement env element opts w in
  narrow (get (Options.renderName opts)) <> Some key ->
  iframes (final r) !! key = iframes w !! key.
Proof.
  run_call_using ltac:(facts1 renderCloned_other_names).
  all: read_world; intros Hne.
  all: try match goal with
       | Hother : forall key, _ <> Some key -> _ |- _ => rewrite (Hother key Hne)
       end.
  all: reflexivity.
Qed.

Lemma other_names_untouched_witness :
  let r := renderElement Page.env 3%nat Options.empty Page.warm in
  iframes (final r) !! "report" = Some 7%nat.
Proof.
  cbv zeta.
  refine (eq_trans (other_names_untouched Page.env Page.warm 3%nat Options.empty "report" _) _).
  - discriminate.
  - reflexivity.
Defined.

(** Every logger call of a run names the run's identity and comes after
    [Logger.create] and before [Logger.destroy]; the logger is destroyed
    when the call returns and left alive when it is rejected. *)
Theorem logger_protocol (env : Env) (w : World) (element : Element) (opts : Options.t)
    (d : Document) (v : Window) :
  ownerDocument env element = Some d ->
  defaultView env d = Some v ->
  let r := renderElement env element opts w in
  loggerProtocol (instanceName env) NotCreated (calls r) =
    Some (match outcome r with Fulfilled _ => Destroyed | Rejected _ => Live end).
Proof.
  intros Hd Hv. cbv zeta. unfold renderElement. rewrite Hd, Hv.
  run_call_using ltac:(facts1 renderCloned_loggerProtocol).
  all: repeat (cbn [loggerProtocol]; rewrite ?String.eqb_refl).
  all: try reflexivity.
  all: assumption.
Qed.

Lemma logger_protocol_witness :
  let r := renderElement Page.env 3%nat (Page.named "report" ".missing") Page.warm in
  loggerProtocol (instanceName Page.env) NotCreated (calls r) = Some Live.
Proof.
  cbv zeta.
  refine (eq_trans (logger_protocol Page.env Page.warm 3%nat (Page.named "report" ".missing")
                      0%nat Page.view _ _) _); reflexivity.
Defined.

(** [html2canvas(element, options)], with or without options: a call that
    returns under an identity that was free leaves the logger and cache
    registries exactly as it found them; and when it destroys its hosting
    frame ([removeContainer] true or absent) and that frame was not
    attached before, the set of attached frames is as it was too. *)
Theorem returning_call_restores (env : Env) (w : World) (element : Element)
    (options : option Options.t) (canvas : Canvas) :
  let opts := default Options.empty options in
  let r := html2canvas env element options w in
  outcome r = Fulfilled canvas ->
  loggers w !! instanceName env = None ->
  caches w !! instanceName env = None ->
  loggers (final r) = loggers w /\
  caches (final r) = caches w /\
  (Options.removeContainer opts = None \/ Options.removeContainer opts = Some (Val true) ->
   forall frame, hostingFrame (calls r) = Some frame -> frame ∉ attachedFrames w ->
   attachedFrames (final r) = attachedFrames w).
Proof.
  cbv zeta. unfold html2canvas. generalize (default Options.empty options) as opts. intros opts.
  run_call_using ltac:(facts1 renderCloned_restores).
  all: try discriminate.
  all: read_world; intros Hc Hl Hch.
  all: match goal with
       | Hres : forall c, _ = Fulfilled c -> _ = delete _ _ /\ _ |- _ =>
           destruct (Hres canvas Hc) as (-> & -> & Hatt)
       end.
  all: rewrite ?delete_insert_eq, !delete_id by assumption.
  all: split; [reflexivity|]; split; [reflexivity|].
  all: intros Hrc frame Hhost Hfresh; cbn [hostingFrame] in Hhost.
  all: rewrite Hatt by (destruct Hrc as [-> | ->]; reflexivity).
  all: injection Hhost as <-.
  all: rewrite ?difference_union_distr_l_L, ?difference_diag_L, ?union_empty_l_L.
  all: apply difference_disjoint_L, disjoint_singleton_r; exact Hfresh.
Qed.

Lemma returning_call_restores_witness :
  let r := html2canvas Page.env 3%nat None Page.warm in
  loggers (final r) = loggers Page.warm /\
  caches (final r) = caches Page.warm /\
  attachedFrames (final r) = attachedFrames Page.warm.
Proof.
  cbv zeta.
  destruct (returning_call_restores Page.env Page.warm 3%nat None 50%nat) as (Hl & Hc & Ha);
    [vm_compute; reflexivity | reflexivity | reflexivity |].
  split; [exact Hl|]. split; [exact Hc|].
  apply (Ha (or_introl eq_refl) 8%nat).
  - vm_compute. reflexivity.
  - refine (bool_decide_unpack _ _). vm_compute. exact I.
Defined.

(** A cache the caller supplies is reused: none is created and the
    renderer gets the caller's.  Without a [cache] property one is created
    under the run identity with the resource options and given to the
    renderer.  A [cache] property that is [undefined] or [null] still has
    one created, but the renderer is given the caller's empty value. *)
Theorem cache_option (env : Env) (w : World) (element : Element) (opts : Options.t)
    (ro : RenderOptions.t) :
  let r := renderElement env element opts w in
  let created := EvCacheCreate (instanceName env) (resourceOptions opts) in
  renderedWith (calls r) = Some ro ->
  (forall cache, Options.cache opts = Some (Val cache) ->
     RenderOptions.cache ro = Val cache /\ existsb isCacheCreate (calls r) = false) /\
  (Options.cache opts = None ->
     RenderOptions.cache ro = Val {| cacheName := instanceName env |} /\ In created (calls r)) /\
  (forall empty, Options.cache opts = Some empty -> truthy empty = false ->
     RenderOptions.cache ro = empty /\ In created (calls r)).
Proof.
  run_call_using ltac:(facts2 renderCloned_renderedWith renderCloned_no_setup).
  all: cbn [renderedWith]; try discriminate.
  all: intros Hro.
  all: match goal with
       | Hwith : forall ro, renderedWith _ = Some ro -> ro = _ |- _ =>
           pose proof (Hwith ro Hro) as ->
       end.
  all: match goal with Hs : _ /\ _ |- _ => destruct Hs as [Hcreate _] end.
  all: cbn [existsb isCacheCreate orb In RenderOptions.cache renderOptions
            mergedOptions Options.spread Options.cache resourceOptions defaultOptions
            defaultResourceOptions].
  all: split; [intros cache Hcache | split; [intros Hcache | intros empty Hcache Hempty]].
  all: rewrite Hcache in *; cbn in *; try discriminate; try congruence.
  all: split; first [reflexivity | assumption | tauto].
Qed.

Lemma cache_option_witness :
  let mine := {| cacheName := "mine" |} in
  let r := renderElement Page.env 3%nat (Scenario.withCache (Val mine)) Page.fresh in
  exists ro, renderedWith (calls r) = Some ro /\
    RenderOptions.cache ro = Val mine /\ existsb isCacheCreate (calls r) = false.
Proof.
  cbv zeta. eexists. split; [vm_compute; reflexivity|].
  eapply (proj1 (cache_option Page.env Page.fresh 3%nat
                   (Scenario.withCache (Val {| cacheName := "mine" |})) _ _)).
  reflexivity.
  Unshelve. vm_compute. reflexivity.
Defined.

(** ** The merged options: lines 62 and 84 *)

Lemma prop_union_assoc {T} (a b c : prop T) : c ∪ (b ∪ a) = c ∪ b ∪ a.
Proof. destruct c, b, a; reflexivity. Qed.

Lemma prop_union_twice {T} (a b : prop T) : b ∪ (b ∪ a) = b ∪ a.
Proof. destruct b, a; reflexivity. Qed.

Lemma prop_union_absent {T} (a : prop T) : a ∪ None = a.
Proof. destruct a; reflexivity. Qed.

Lemma spread_assoc (a b c : Options.t) :
  Options.spread (Options.spread a b) c = Options.spread a (Options.spread b c).
Proof. destruct a, b, c. unfold Options.spread. cbn. f_equal; apply prop_union_assoc. Qed.

Lemma spread_twice (a b : Options.t) :
  Options.spread (Options.spread a b) b = Options.spread a b.
Proof. destruct a, b. unfold Options.spread. cbn. f_equal; apply prop_union_twice. Qed.

(** Spreading [opts] twice adds nothing: the options of line 84 are the
    caller's own properties over the resource defaults over the defaults
    of lines 64-82, and spreading is associative with [{}] as unit. *)
Theorem mergedOptions_layers (view : Window) (bounds : Bounds.t Q) (name : string)
    (cache : js Cache) (opts : Options.t) :
  mergedOptions view bounds name cache opts =
    Options.spread (Options.spread (defaultOptions view bounds name cache) defaultResourceOptions) opts /\
  (forall a b c, Options.spread (Options.spread a b) c = Options.spread a (Options.spread b c)) /\
  (forall a, Options.spread a Options.empty = a /\ Options.spread Options.empty a = a).
Proof.
  split; [| split].
  - unfold mergedOptions, resourceOptions.
    rewrite <- spread_assoc, spread_twice. reflexivity.
  - apply spread_assoc.
  - intros a. destruct a. unfold Options.spread, Options.empty. cbn.
    split; f_equal; first [apply prop_union_absent | reflexivity].
Qed.

(** ** The run identity: line 50 *)

Lemma hexDigitValue_hexDigit (d : Z) : (0 <= d < 16)%Z -> hexDigitValue (hexDigit d) = d.
Proof.
  intros Hd.
  assert (Hcases : (d = 0 \/ d = 1 \/ d = 2 \/ d = 3 \/ d = 4 \/ d = 5 \/ d = 6 \/ d = 7 \/
                    d = 8 \/ d = 9 \/ d = 10 \/ d = 11 \/ d = 12 \/ d = 13 \/ d = 14 \/
                    d = 15)%Z) by lia.
  repeat (destruct Hcases as [-> | Hcases]; [reflexivity |]).
  subst d. reflexivity.
Qed.

Lemma hexValue_hexDigits (fuel : nat) (n : Z) (acc : string) :
  (0 <= n < 16 ^ Z.of_nat fuel)%Z ->
  hexValue (hexDigits fuel n acc) = (n * 16 ^ Z.of_nat (String.length acc) + hexValue acc)%Z.
Proof.
  revert n acc. induction fuel as [|fuel IH]; intros n acc Hn.
  - cbn in *. assert (Hn0 : (n = 0)%Z) by lia. subst n. reflexivity.
  - assert (Hdigit : (0 <= n mod 16 < 16)%Z) by (apply Z.mod_pos_bound; lia).
    assert (Hsplit : (n = 16 * (n / 16) + n mod 16)%Z) by (apply Z.div_mod; lia).
    cbn [hexDigits]. destruct (Z.eqb_spec (n / 16)%Z 0%Z) as [Hz | Hz].
    + cbn [hexValue]. rewrite hexDigitValue_hexDigit by exact Hdigit. lia.
    + rewrite IH.
      * cbn [hexValue String.length]. rewrite hexDigitValue_hexDigit by exact Hdigit.
        rewrite Nat2Z.inj_succ, Z.pow_succ_r by lia. lia.
      * rewrite Nat2Z.inj_succ, Z.pow_succ_r in Hn by lia.
        split; [apply Z.div_pos; lia | apply Z.div_lt_upper_bound; lia].
Qed.

(** [toString(16)] loses nothing: the digits of a number that is not
    negative stand for that number. *)
Lemma hexValue_toString16 (n : Z) : (0 <= n)%Z -> hexValue (toString16 n) = n.
Proof.
  intros Hn. unfold toString16.
  destruct (Z.ltb_spec n 0%Z) as [Hlt | _]; [lia|].
  rewrite hexValue_hexDigits; [cbn; lia |].
  split; [exact Hn|].
  destruct (Z.eq_dec n 0%Z) as [-> | Hpos]; [reflexivity|].
  pose proof (Z.log2_spec n ltac:(lia)) as [_ Hlog].
  pose proof (Z.log2_nonneg n) as Hnonneg.
  rewrite Nat2Z.inj_succ, Z2Nat.id by exact Hnonneg.
  eapply Z.lt_le_trans; [exact Hlog|].
  apply Z.pow_le_mono_l. lia.
Qed.

Lemma Math_round_random (q : Q) :
  (0 <= q)%Q -> (q < 1)%Q -> (0 <= Math_round (q * 1000) <= 1000)%Z.
Proof.
  intros H0 H1. unfold Math_round. split.
  - change 0%Z with (Qfloor 0%Q). apply Qfloor_resp_le.
    apply Qle_trans with (q * 1000)%Q.
    + apply Qmult_le_0_compat; [exact H0 | discriminate].
    + rewrite <- (Qplus_0_r (q * 1000)) at 1. apply Qplus_le_r. discriminate.
  - assert (Hlt : (inject_Z (Qfloor (q * 1000 + (1 # 2))) < inject_Z 1001)%Q).
    { eapply Qle_lt_trans; [apply Qfloor_le|].
      apply Qlt_trans with (1000 + (1 # 2))%Q; [| reflexivity].
      apply Qplus_lt_l. rewrite <- (Qmult_1_l 1000) at 2.
      apply Qmult_lt_r; [reflexivity | exact H1]. }
    rewrite <- Zlt_Qlt in Hlt. lia.
Qed.

(** The run identity is the hexadecimal form of the clock plus a random
    offset between 0 and 1000, so two calls whose clocks are more than 1000
    ms apart never share an identity. *)
Theorem instanceName_distinct (env1 env2 : Env) :
  (0 <= Math_random env1)%Q -> (Math_random env1 < 1)%Q ->
  (0 <= Math_random env2)%Q -> (Math_random env2 < 1)%Q ->
  (0 <= Date_now env1)%Z ->
  (Date_now env1 + 1000 < Date_now env2)%Z ->
  instanceName env1 <> instanceName env2.
Proof.
  intros Ha1 Hb1 Ha2 Hb2 Hnow Hlater Heq.
  pose proof (Math_round_random _ Ha1 Hb1) as H1.
  pose proof (Math_round_random _ Ha2 Hb2) as H2.
  apply (f_equal hexValue) in Heq. unfold instanceName in Heq.
  rewrite !hexValue_toString16 in Heq by lia. lia.
Qed.

Lemma instanceName_distinct_witness :
  instanceName (Scenario.env 1000 (Some 100%nat) (inl 50%nat) Undefined)
  <> instanceName (Scenario.env 2001 (Some 100%nat) (inl 50%nat) Undefined).
Proof.
  apply instanceName_distinct; cbn; first [discriminate | reflexivity | lia].
Defined.

(** Within those 1000 ms identities can collide: a call at 1000 ms with
    offset 500 and one at 1400 ms with offset 100. *)
Example instanceName_collision :
  toString16 (Math_round ((1 # 2) * 1000) + 1000) = toString16 (Math_round ((1 # 10) * 1000) + 1400).
Proof. reflexivity. Qed.

(** ** One call after another *)

(** A call that returns with a truthy render name has stored its hosting
    frame under it. *)
Lemma renderElement_stores (env : Env) (w : World) (element : Element) (opts : Options.t)
    (name : string) (canvas : Canvas) :
  let r := renderElement env element opts w in
  narrow (get (Options.renderName opts)) = Some name ->
  outcome r = Fulfilled canvas ->
  exists container,
    hostingFrame (calls r) = Some container /\ iframes (final r) !! name = Some container.
Proof.
  run_call_using ltac:(facts1 renderCloned_saves).
  all: intros Hn Hc; try discriminate Hc.
  all: match goal with
       | Hsave : forall rn c, _ -> _ -> In _ _ /\ _ |- _ =>
           destruct (Hsave name canvas Hn Hc) as (_ & Hlook & _)
       end.
  all: eexists; split; [cbn [hostingFrame]; reflexivity | exact Hlook].
Qed.

(** With a truthy selector and a live frame stored under a truthy render
    name, the fast duplication runs in that frame and no frame is
    created. *)
Lemma renderElement_fast_in_stored (env : Env) (w : World) (element : Element)
    (opts : Options.t) (d : Document) (v : Window) (selector name : string)
    (frame : Frame) (containerWindow : Window) :
  let r := renderElement env element opts w in
  ownerDocument env element = Some d ->
  defaultView env d = Some v ->
  narrow (get (Options.replaceSelector opts)) = Some selector ->
  narrow (get (Options.renderName opts)) = Some name ->
  iframes w !! name = Some frame ->
  contentWindow env frame = Some containerWindow ->
  hostingFrame (calls r) = Some frame /\
  existsb isFastClone (calls r) = true /\
  existsb isToIFrame (calls r) = false.
Proof.
  cbv zeta. intros Hd Hv. unfold renderElement. rewrite Hd, Hv.
  run_call_using ltac:(facts1 renderCloned_no_setup).
  all: read_world; intros Hs Hn Hf Hw.
  all: try congruence.
  all: assert (frame = f) as <- by congruence.
  all: cbn [hostingFrame existsb isFastClone isToIFrame orb].
  all: repeat split; try reflexivity.
  all: match goal with Hnone : _ /\ existsb isToIFrame _ = false |- _ => exact (proj2 Hnone) end.
Qed.

(** Two calls in a row under the same truthy render name: when the first
    returns and the frame it hosted still has a window at the second call,
    the second call, given a truthy selector, runs the fast duplication in
    that very frame and creates no frame of its own. *)
Theorem second_call_reuses_frame (env1 env2 : Env) (w : World) (element1 element2 : Element)
    (opts1 opts2 : Options.t) (name selector : string) (canvas : Canvas)
    (d : Document) (v : Window) (frame : Frame) (containerWindow : Window) :
  let r1 := renderElement env1 element1 opts1 w in
  let r2 := renderElement env2 element2 opts2 (final r1) in
  Options.renderName opts1 = Some (Val name) ->
  Options.renderName opts2 = Some (Val name) ->
  name <> EmptyString ->
  Options.replaceSelector opts2 = Some (Val selector) ->
  selector <> EmptyString ->
  outcome r1 = Fulfilled canvas ->
  hostingFrame (calls r1) = Some frame ->
  ownerDocument env2 element2 = Some d ->
  defaultView env2 d = Some v ->
  contentWindow env2 frame = Some containerWindow ->
  hostingFrame (calls r2) = Some frame /\
  existsb isFastClone (calls r2) = true /\
  existsb isToIFrame (calls r2) = false.
Proof.
  cbv zeta. intros Hn1 Hn2 Hname Hs2 Hsel Hc Hhost Hd Hv Hwin.
  assert (Hnarrow : forall p s, p = Some (Val s) -> s <> EmptyString ->
            narrow (get p) = Some s).
  { intros p s -> Hs. apply narrow_Some. split; [reflexivity | exact Hs]. }
  destruct (renderElement_stores env1 w element1 opts1 name canvas
              (Hnarrow _ _ Hn1 Hname) Hc) as (container & Hhost' & Hstored).
  assert (container = frame) as -> by congruence.
  apply (renderElement_fast_in_stored env2 _ element2 opts2 d v selector name frame
           containerWindow Hd Hv (Hnarrow _ _ Hs2 Hsel) (Hnarrow _ _ Hn2 Hname) Hstored Hwin).
Qed.

Lemma second_call_reuses_frame_witness :
  let opts := Page.withRemoveContainer (Val false) (Page.named "report" "#slot") in
  let r1 := renderElement Page.env 3%nat opts Page.fresh in
  let env2 := Scenario.env 5000 (Some 100%nat) (inl 50%nat) (Val (2 # 1)) in
  let r2 := renderElement env2 3%nat opts (final r1) in
  hostingFrame (calls r1) = Some 8%nat /\
  hostingFrame (calls r2) = Some 8%nat /\
  existsb isFastClone (calls r2) = true /\
  existsb isToIFrame (calls r2) = false.
Proof.
  cbv zeta. split; [vm_compute; reflexivity|].
  eapply (second_call_reuses_frame Page.env _ Page.fresh 3%nat 3%nat _ _ "report" "#slot"
            50%nat 0%nat);
    first [ reflexivity | discriminate | (vm_compute; reflexivity) ].
Defined.

(** ** The capture rectangle, the scale and the window bounds *)

Lemma Math_ceil_bounds (q : Q) :
  exists n : Z, Math_ceil q = inject_Z n /\ (q <= inject_Z n)%Q /\ (inject_Z n < q + 1)%Q.
Proof.
  exists (Qceiling q). split; [reflexivity|]. split; [apply Qle_ceiling|].
  apply Qle_lt_trans with (inject_Z (Qceiling q - 1) + inject_Z 1)%Q.
  - rewrite <- inject_Z_plus. rewrite <- Zle_Qle. lia.
  - apply Qplus_lt_l. apply Qceiling_lt.
Qed.

(** For an element that is neither a body nor a root element the capture
    rectangle is the element's own bounds: the renderer gets their [left]
    and [top] as [x] and [y], and as [width] and [height] the least whole
    numbers not below the bounds' width and height; a property the caller
    sets, whatever its value, replaces the computed one. *)
Theorem element_capture_rectangle (env : Env) (w : World) (element : Element)
    (opts : Options.t) (d : Document) (ro : RenderOptions.t) :
  let b := parseBounds env element in
  ownerDocument env element = Some d ->
  isBodyElement env element = false ->
  isHTMLElement env element = false ->
  renderedWith (calls (renderElement env element opts w)) = Some ro ->
  (Options.x opts = None -> RenderOptions.x ro = Val (Bounds.left b)) /\
  (Options.y opts = None -> RenderOptions.y ro = Val (Bounds.top b)) /\
  (Options.width opts = None ->
     exists n : Z, RenderOptions.width ro = Val (inject_Z n) /\
       (Bounds.width b <= inject_Z n)%Q /\ (inject_Z n < Bounds.width b + 1)%Q) /\
  (Options.height opts = None ->
     exists n : Z, RenderOptions.height ro = Val (inject_Z n) /\
       (Bounds.height b <= inject_Z n)%Q /\ (inject_Z n < Bounds.height b + 1)%Q) /\
  (forall value, Options.x opts = Some value -> RenderOptions.x ro = value) /\
  (forall value, Options.y opts = Some value -> RenderOptions.y ro = value) /\
  (forall value, Options.width opts = Some value -> RenderOptions.width ro = value) /\
  (forall value, Options.height opts = Some value -> RenderOptions.height ro = value).
Proof.
  cbv zeta. intros Hd Hbody Hhtml Hro.
  destruct (renderElement_renderedWith _ _ _ _ _ _ Hd Hro) as (view & cache & _ & ->).
  assert (Hb : captureBounds env element d = parseBounds env element)
    by (unfold captureBounds; rewrite Hbody, Hhtml; reflexivity).
  rewrite Hb. cbn.
  repeat split.
  1-2: intros ->; reflexivity.
  1-2: intros ->; cbn;
       match goal with |- context [Math_ceil ?q] =>
         destruct (Math_ceil_bounds q) as (n & -> & Hle & Hlt)
       end; exists n; auto.
  all: intros value ->; reflexivity.
Qed.

Lemma element_capture_rectangle_witness :
  let r := renderElement Page.env 3%nat Options.empty Page.fresh in
  exists ro, renderedWith (calls r) = Some ro /\
    RenderOptions.x ro = Val (10 # 1) /\
    exists n : Z, RenderOptions.width ro = Val (inject_Z n) /\
      (301 # 2 <= inject_Z n)%Q /\ (inject_Z n < (301 # 2) + 1)%Q.
Proof.
  cbv zeta. eexists. split; [vm_compute; reflexivity|].
  edestruct (element_capture_rectangle Page.env Page.fresh 3%nat Options.empty 0%nat)
    as (Hx & _ & Hw & _);
    [reflexivity | reflexivity | reflexivity | vm_compute; reflexivity |].
  split; [apply Hx; reflexivity | apply Hw; reflexivity].
Defined.

(** The window's part in the defaults: the renderer's [scale] is the
    caller's [scale] property if there is one, else the window's
    [devicePixelRatio] if that is truthy, else 1; and the frame of the full
    duplication is created for the owner document with the bounds
    [scrollX, scrollY, windowWidth, windowHeight], each the caller's
    property if there is one, else the window's [pageXOffset],
    [pageYOffset], [innerWidth] and [innerHeight]. *)
Theorem window_defaults (env : Env) (w : World) (element : Element) (opts : Options.t)
    (d : Document) (v : Window) :
  let r := renderElement env element opts w in
  let from {T} (p : prop T) (fallback : T) := default (Val fallback) p in
  ownerDocument env element = Some d ->
  defaultView env d = Some v ->
  (forall ro, renderedWith (calls r) = Some ro ->
     RenderOptions.scale ro =
       default (if truthy (devicePixelRatio v) then devicePixelRatio v else Val (1 # 1))
               (Options.scale opts)) /\
  (forall cloner doc windowBounds frame,
     In (EvToIFrame cloner doc windowBounds frame) (calls r) ->
     doc = d /\
     windowBounds =
       Bounds.make (from (Options.scrollX opts) (pageXOffset v))
                   (from (Options.scrollY opts) (pageYOffset v))
                   (from (Options.windowWidth opts) (innerWidth v))
                   (from (Options.windowHeight opts) (innerHeight v))).
Proof.
  cbv zeta. intros Hd Hv. split.
  - intros ro Hro.
    destruct (renderElement_renderedWith _ _ _ _ _ _ Hd Hro) as (view & cache & Hv' & ->).
    assert (view = v) as -> by congruence.
    cbn. unfold js_or. destruct (Options.scale opts); reflexivity.
  - unfold renderElement. rewrite Hd, Hv.
    run_call_using ltac:(facts1 renderCloned_no_setup).
    all: intros cloner doc windowBounds frame Hin; in_cases Hin.
    all: try match goal with
         | Hnone : _ /\ existsb isToIFrame ?cs = false |- _ =>
             pose proof (existsb_false_In _ _ _ (proj2 Hnone) Hin); discriminate
         end.
    all: injection Hin as <- <- <- <-; split; [reflexivity|].
    all: cbn; destruct (Options.scrollX opts), (Options.scrollY opts),
           (Options.windowWidth opts), (Options.windowHeight opts); reflexivity.
Qed.

Lemma window_defaults_witness :
  let env := Scenario.env 1000 (Some 100%nat) (inl 50%nat) Undefined in
  let r := renderElement env 3%nat Options.empty Page.fresh in
  exists ro, renderedWith (calls r) = Some ro /\ RenderOptions.scale ro = Val (1 # 1).
Proof.
  cbv zeta. eexists. split; [vm_compute; reflexivity|].
  refine (eq_trans
            (proj1 (window_defaults (Scenario.env 1000 (Some 100%nat) (inl 50%nat) Undefined)
                      Page.fresh 3%nat Options.empty 0%nat
                      {| windowId := 0; devicePixelRatio := Undefined;
                         innerWidth := 800 # 1; innerHeight := 600 # 1;
                         pageXOffset := 5 # 1; pageYOffset := 7 # 1 |}
                      eq_refl eq_refl) _ _) _);
    [vm_compute; reflexivity | reflexivity].
Defined.
